(** * Sky-Planner: the weather-derived recommendation engine

    A shallow embedding of [src/index.js]: the risk classifier
    ([calculateRiskLevel]), the packing list generator
    ([generatePackingList]), the time slot advisor ([generateTimeSlots]) and
    the part of [getWeatherData] that turns a provider payload into the
    weather object the three of them read.

    The weather object holds display strings ("21°C", "40%", "12 km/h",
    "7 (High)"); the engine reads them back with [parseInt].  Both directions
    are modelled, so that statements about integer readings go through the
    strings the code really builds. *)

From Stdlib Require Import ZArith QArith Qround Bool List Lia Lqa.
From Stdlib Require Import Strings.Ascii Strings.String.
From Stdlib Require Import Numbers.DecimalString Numbers.DecimalZ.
From Stdlib Require Import Numbers.HexadecimalZ.
Import ListNotations.

Open Scope string_scope.
Open Scope list_scope.
Open Scope Z_scope.

(** ** JavaScript values used by the engine *)

(** A JavaScript Number.  Every finite double is a rational, so [Fin q] with
    [q : Q] covers the finite ones; [Fin z] with [z : Z] is an integral
    Number, which is what [Math.round] and [parseInt] produce. *)
Inductive number (A : Type) : Type :=
| NaN
| NegInfinity
| Infinity
| Fin (a : A).

Arguments NaN {A}.
Arguments NegInfinity {A}.
Arguments Infinity {A}.
Arguments Fin {A} a.

(** A field of a parsed JSON object that the provider documents as a number:
    missing, [null], or a Number. *)
Inductive jsval (A : Type) : Type :=
| Undefined
| Null
| Num (n : number A).

Arguments Undefined {A}.
Arguments Null {A}.
Arguments Num {A} n.

(** [v || d] for a numeric default [d]: [undefined], [null], [NaN] and zero
    are falsy. *)
Definition or_default {A : Type} (isZero : A -> bool)
           (v : jsval A) (d : A) : number A :=
  match v with
  | Undefined | Null => Fin d
  | Num NaN => Fin d
  | Num (Fin a) => if isZero a then Fin d else Fin a
  | Num n => n
  end.

(** [v ?? d]: only [undefined] and [null] take the default.  The source never
    uses this operator; the specification's formula for the UV index does. *)
Definition nullish_default {A : Type} (v : jsval A) (d : A) : number A :=
  match v with
  | Undefined | Null => Fin d
  | Num n => n
  end.

Definition Qis_zero (q : Q) : bool := (Qnum q =? 0)%Z.
Definition Zis_zero (z : Z) : bool := (z =? 0)%Z.

(** Relational operators against an integer constant.  Any comparison with
    [NaN] is false. *)
Definition js_gt (n : number Z) (k : Z) : bool :=
  match n with
  | NaN | NegInfinity => false
  | Infinity => true
  | Fin z => z >? k
  end.

Definition js_lt (n : number Z) (k : Z) : bool :=
  match n with
  | NaN | Infinity => false
  | NegInfinity => true
  | Fin z => z <? k
  end.

Definition js_le (n : number Z) (k : Z) : bool :=
  match n with
  | NaN | Infinity => false
  | NegInfinity => true
  | Fin z => z <=? k
  end.

Declare Scope js_scope.
Delimit Scope js_scope with js.
Infix ">" := js_gt : js_scope.
Infix "<" := js_lt : js_scope.
Infix "<=" := js_le : js_scope.

(** [Math.round]: the nearest integer, ties towards +infinity, which on a
    finite double is exactly [floor (x + 1/2)]. *)
Definition Math_round (n : number Q) : number Z :=
  match n with
  | NaN => NaN
  | NegInfinity => NegInfinity
  | Infinity => Infinity
  | Fin q => Fin (Qfloor (q + (1 # 2))%Q)
  end.

(** [Math.max] and [Math.min] of two Numbers: [NaN] if either is. *)
Definition Math_max (a b : number Z) : number Z :=
  match a, b with
  | NaN, _ | _, NaN => NaN
  | Infinity, _ | _, Infinity => Infinity
  | NegInfinity, x | x, NegInfinity => x
  | Fin x, Fin y => Fin (Z.max x y)
  end.

Definition Math_min (a b : number Z) : number Z :=
  match a, b with
  | NaN, _ | _, NaN => NaN
  | NegInfinity, _ | _, NegInfinity => NegInfinity
  | Infinity, x | x, Infinity => x
  | Fin x, Fin y => Fin (Z.min x y)
  end.

(** *** Numbers to strings and back *)

(** [Number::toString] of an integral Number: plain decimal digits.  This is
    what JavaScript prints for every safe integer (up to 2^53 - 1 in
    magnitude); beyond that it prints the shortest digits that identify the
    double and, from 10^21 on, the exponent form, which this integer model
    does not follow. *)
Definition Number_toString (n : number Z) : string :=
  match n with
  | NaN => "NaN"
  | NegInfinity => "-Infinity"
  | Infinity => "Infinity"
  | Fin z => NilZero.string_of_int (Z.to_int z)
  end.

(** [`${v}`] for a provider field. *)
Definition ToString (v : jsval Z) : string :=
  match v with
  | Undefined => "undefined"
  | Null => "null"
  | Num n => Number_toString n
  end.

(** White space that [parseInt] skips (the ASCII part of StrWhiteSpaceChar:
    TAB, LF, VT, FF, CR, SP). *)
Definition isWhiteSpace (c : ascii) : bool :=
  let n := nat_of_ascii c in
  ((9 <=? n) && (n <=? 13) || (n =? 32))%nat.

Fixpoint trimStart (s : string) : string :=
  match s with
  | String c s' => if isWhiteSpace c then trimStart s' else s
  | EmptyString => EmptyString
  end.

(** The longest prefix of decimal digits, as a decimal numeral. *)
Fixpoint decimalPrefix (s : string) : Decimal.uint :=
  match s with
  | String "0" s' => Decimal.D0 (decimalPrefix s')
  | String "1" s' => Decimal.D1 (decimalPrefix s')
  | String "2" s' => Decimal.D2 (decimalPrefix s')
  | String "3" s' => Decimal.D3 (decimalPrefix s')
  | String "4" s' => Decimal.D4 (decimalPrefix s')
  | String "5" s' => Decimal.D5 (decimalPrefix s')
  | String "6" s' => Decimal.D6 (decimalPrefix s')
  | String "7" s' => Decimal.D7 (decimalPrefix s')
  | String "8" s' => Decimal.D8 (decimalPrefix s')
  | String "9" s' => Decimal.D9 (decimalPrefix s')
  | _ => Decimal.Nil
  end.

(** The longest prefix of hexadecimal digits, either case. *)
Fixpoint hexPrefix (s : string) : Hexadecimal.uint :=
  match s with
  | String "0" s' => Hexadecimal.D0 (hexPrefix s')
  | String "1" s' => Hexadecimal.D1 (hexPrefix s')
  | String "2" s' => Hexadecimal.D2 (hexPrefix s')
  | String "3" s' => Hexadecimal.D3 (hexPrefix s')
  | String "4" s' => Hexadecimal.D4 (hexPrefix s')
  | String "5" s' => Hexadecimal.D5 (hexPrefix s')
  | String "6" s' => Hexadecimal.D6 (hexPrefix s')
  | String "7" s' => Hexadecimal.D7 (hexPrefix s')
  | String "8" s' => Hexadecimal.D8 (hexPrefix s')
  | String "9" s' => Hexadecimal.D9 (hexPrefix s')
  | String "a" s' | String "A" s' => Hexadecimal.Da (hexPrefix s')
  | String "b" s' | String "B" s' => Hexadecimal.Db (hexPrefix s')
  | String "c" s' | String "C" s' => Hexadecimal.Dc (hexPrefix s')
  | String "d" s' | String "D" s' => Hexadecimal.Dd (hexPrefix s')
  | String "e" s' | String "E" s' => Hexadecimal.De (hexPrefix s')
  | String "f" s' | String "F" s' => Hexadecimal.Df (hexPrefix s')
  | _ => Hexadecimal.Nil
  end.

(** Steps 6 to 16 of [parseInt] for an implicit radix: strip a [0x] prefix
    (radix 16) or stay in radix 10, take the longest prefix of digits; [NaN]
    when there is none. *)
Definition parseDigits (sign : Z) (S : string) : number Z :=
  match S with
  | String "0" (String "x" rest) | String "0" (String "X" rest) =>
      match hexPrefix rest with
      | Hexadecimal.Nil => NaN
      | digits => Fin (sign * Z.of_hex_uint digits)
      end
  | _ =>
      match decimalPrefix S with
      | Decimal.Nil => NaN
      | digits => Fin (sign * Z.of_uint digits)
      end
  end.

(** [parseInt(s)] with no radix argument: skip white space, read a sign, then
    the digits.  The integer is kept exact: the engine only compares it with
    small constants, and rounding a long digit string to a double is
    monotone, so no comparison changes. *)
Definition parseInt (input : string) : number Z :=
  let S := trimStart input in
  match S with
  | String "-" rest => parseDigits (-1) rest
  | String "+" rest => parseDigits 1 rest
  | _ => parseDigits 1 S
  end.

(** *** Arrays *)

(** [items.push(a, b, ...)]: the arguments go to the end, in order. *)
Definition push {A : Type} (items : list A) (args : list A) : list A :=
  items ++ args.

(** [arr.slice(start, end)] for non-negative indices. *)
Definition slice {A : Type} (start end_ : nat) (arr : list A) : list A :=
  firstn (end_ - start) (skipn start arr).

(** ** The weather object and the values derived from it *)

(** What [getWeatherData] returns and the engine reads: display strings. *)
Record Weather : Type := mkWeather {
  temperature : string;
  condition : string;
  precipitation : string;
  windSpeed : string;
  uvIndex : string
}.

(** The three strings ["low"], ["medium"], ["high"]. *)
Inductive RiskLevel : Type := low | medium | high.

Definition RiskLevel_eqb (a b : RiskLevel) : bool :=
  match a, b with
  | low, low | medium, medium | high, high => true
  | _, _ => false
  end.

Record TimeSlot : Type := mkTimeSlot {
  time : string;
  risk : RiskLevel
}.

(** *** getUVDescription *)

Definition getUVDescription (uvIndex : number Z) : string :=
  if (uvIndex <= 2)%js then "Low"
  else if (uvIndex <= 5)%js then "Moderate"
  else if (uvIndex <= 7)%js then "High"
  else if (uvIndex <= 10)%js then "Very High"
  else "Extreme".

(** *** calculateRiskLevel

    [riskScore] is threaded through the three blocks of the source; each block
    is a function of the parsed field and the score so far. *)

Definition temperatureRisk (temp : number Z) (riskScore : Z) : Z :=
  if (temp > 35)%js || (temp < 5)%js then riskScore + 2
  else if (temp > 30)%js || (temp < 10)%js then riskScore + 1
  else riskScore.

Definition precipitationRisk (precip : number Z) (riskScore : Z) : Z :=
  if (precip > 70)%js then riskScore + 2
  else if (precip > 30)%js then riskScore + 1
  else riskScore.

Definition windRisk (wind : number Z) (riskScore : Z) : Z :=
  if (wind > 25)%js then riskScore + 2
  else if (wind > 15)%js then riskScore + 1
  else riskScore.

Definition calculateRiskLevel (weather : Weather) : RiskLevel :=
  let riskScore := 0 in
  let temp := parseInt weather.(temperature) in
  let riskScore := temperatureRisk temp riskScore in
  let precip := parseInt weather.(precipitation) in
  let riskScore := precipitationRisk precip riskScore in
  let wind := parseInt weather.(windSpeed) in
  let riskScore := windRisk wind riskScore in
  if riskScore >=? 3 then high
  else if riskScore >=? 1 then medium
  else low.

(** *** generatePackingList *)

Definition generatePackingList (weather : Weather) : list string :=
  let items := [] in
  let precip := parseInt weather.(precipitation) in
  let temp := parseInt weather.(temperature) in
  let uvIndex := parseInt weather.(uvIndex) in
  let items := push items ["Water bottle"] in
  let items :=
    if (precip > 20)%js then push items ["Umbrella"; "Waterproof jacket"]
    else items in
  let items :=
    if (temp < 15)%js then push items ["Warm jacket"; "Blanket"] else items in
  let items :=
    if (temp > 25)%js then push items ["Hat"; "Light clothing"] else items in
  let items :=
    if (uvIndex > 5)%js then push items ["Sunscreen"; "Sunglasses"]
    else items in
  let items :=
    if (parseInt weather.(windSpeed) > 15)%js then push items ["Windbreaker"]
    else items in
  items.

(** *** generateTimeSlots *)

(** The five-entry [slots] array built before the truncation. *)
Definition slots (baseRisk : RiskLevel) : list TimeSlot :=
  [ mkTimeSlot "10:00 AM" low;
    mkTimeSlot "12:00 PM" baseRisk;
    mkTimeSlot "2:00 PM" baseRisk;
    mkTimeSlot "4:00 PM" (if RiskLevel_eqb baseRisk low then medium else high);
    mkTimeSlot "6:00 PM" low ].

Definition generateTimeSlots (weather : Weather) : list TimeSlot :=
  let baseRisk := calculateRiskLevel weather in
  slice 0 3 (slots baseRisk).

(** ** getWeatherData *)

(** *** Effects and exceptions

    A computation leaves a trace of what it did to the outside world and
    either throws or returns. *)

Inductive Effect : Type :=
| ConsoleError (label : string)
| ConsoleWarn (label : string)
| Toast (message : string) (type : string).

(** [new Error(message)]. *)
Inductive Thrown : Type := Error (message : string).

Definition M (A : Type) : Type := (list Effect * (Thrown + A))%type.

Definition ret {A : Type} (a : A) : M A := ([], inr a).

Definition throw {A : Type} (e : Thrown) : M A := ([], inl e).

Definition emit (e : Effect) : M unit := ([e], inr tt).

Definition bind {A B : Type} (m : M A) (k : A -> M B) : M B :=
  match m with
  | (done, inl e) => (done, inl e)
  | (done, inr a) => let (more, r) := k a in (done ++ more, r)
  end.

(** [try { body } catch (err) { handler }]. *)
Definition try_catch {A : Type} (body : M A) (handler : Thrown -> M A) : M A :=
  match body with
  | (done, inl err) => let (more, r) := handler err in (done ++ more, r)
  | (done, inr a) => (done, inr a)
  end.

(** [await p] on a promise that has settled: rejected or fulfilled. *)
Definition await {A : Type} (p : Thrown + A) : M A := ([], p).

Declare Scope effect_scope.
Delimit Scope effect_scope with eff.
Notation "x <- m ;; k" := (bind m (fun x => k))
  (at level 61, m at next level, right associativity) : effect_scope.
Notation "m ;; k" := (bind m (fun _ => k))
  (at level 61, right associativity) : effect_scope.

Definition effects {A : Type} (m : M A) : list Effect := fst m.
Definition outcome {A : Type} (m : M A) : Thrown + A := snd m.

(** The user-facing notification channel. *)
Definition showToast (message type : string) : M unit :=
  emit (Toast message type).

Definition showErrorMessage (message : string) : M unit :=
  showToast message "error".

Definition console_error (label : string) : M unit :=
  emit (ConsoleError label).

Definition console_warn (label : string) : M unit :=
  emit (ConsoleWarn label).

(** *** The provider's response *)

Module Provider.

(** The [error] object of a failed request; only [info] is read. *)
Record ErrorObject : Type := mkErrorObject {
  info : option string
}.

(** The [current] object.  The three values that are only interpolated into
    a string are taken as integral Numbers. *)
Record Current : Type := mkCurrent {
  temperature : jsval Z;
  weather_descriptions : option (list string);
  precip : jsval Z;
  wind_speed : jsval Z;
  uv_index : jsval Q
}.

(** The parsed JSON body. *)
Record Payload : Type := mkPayload {
  error : option ErrorObject;
  current : option Current
}.

(** What [fetch] resolves to; [json] is the settled [response.json()]. *)
Record Response : Type := mkResponse {
  ok : bool;
  status : Z;
  json : Thrown + Payload
}.

End Provider.

(** [s || d] on an optional string: [undefined] and the empty string are
    falsy. *)
Definition or_string (s : option string) (d : string) : string :=
  match s with
  | Some EmptyString | None => d
  | Some s' => s'
  end.

(** [data.current.weather_descriptions?.[0]]. *)
Definition first_description (c : Provider.Current) : option string :=
  match Provider.weather_descriptions c with
  | Some (d :: _) => Some d
  | Some [] | None => None
  end.

(** The [uvIndex] constant of the source:
    [Math.min(Math.max(Math.round(data.current.uv_index || 5), 1), 11)]. *)
Definition normalizeUvIndex (uv_index : jsval Q) : number Z :=
  Math_min
    (Math_max (Math_round (or_default Qis_zero uv_index 5%Q)) (Fin 1))
    (Fin 11).

(** The body of the [try] block from [const data = await response.json()]
    on: the provider's error object first, then the [current] section. *)
Definition normalize (data : Provider.Payload) : M Weather :=
  (match Provider.error data with
   | Some error =>
       console_error "WeatherStack API error:" ;;
       showErrorMessage
         ("Weather API error: "
            ++ or_string (Provider.info error) "Unknown error") ;;
       throw (Error (or_string (Provider.info error) "Unknown API error"))
   | None =>
       match Provider.current data with
       | Some current =>
           let uvIndex := normalizeUvIndex (Provider.uv_index current) in
           ret {| temperature :=
                    ToString (Provider.temperature current) ++ "°C";
                  condition :=
                    or_string (first_description current) "Unknown";
                  precipitation :=
                    Number_toString
                      (or_default Zis_zero (Provider.precip current) 0)
                      ++ "%";
                  windSpeed :=
                    Number_toString
                      (or_default Zis_zero (Provider.wind_speed current) 0)
                      ++ " km/h";
                  uvIndex :=
                    Number_toString uvIndex
                      ++ " (" ++ getUVDescription uvIndex ++ ")" |}
       | None =>
           console_warn "Unexpected API response format:" ;;
           throw (Error "Invalid response format from weather API")
       end
   end)%eff.

(** The body of the [try] block of [getWeatherData], given what the [fetch]
    settled to. *)
Definition getWeatherData_try (fetched : Thrown + Provider.Response)
  : M Weather :=
  (response <- await fetched ;;
   if negb (Provider.ok response) then
     throw (Error ("API responded with status "
                     ++ Number_toString (Fin (Provider.status response))))
   else
     data <- await (Provider.json response) ;;
     normalize data)%eff.

(** The [catch] block: log, notify the user, rethrow. *)
Definition getWeatherData_catch (err : Thrown) : M Weather :=
  (console_error "Weather API error:" ;;
   showErrorMessage
     "Failed to fetch weather data. Please check your API key and connection." ;;
   throw err)%eff.

Definition getWeatherData (fetched : Thrown + Provider.Response) : M Weather :=
  try_catch (getWeatherData_try fetched) getWeatherData_catch.

(** The two failures of the [try] block that come from the payload, under the
    names the specification gives them. *)
Definition ProviderError (error : Provider.ErrorObject) : Thrown :=
  Error (or_string (Provider.info error) "Unknown API error").

Definition UpstreamError : Thrown :=
  Error "Invalid response format from weather API".

(** A successful HTTP response whose body parsed to [data]. *)
Definition responded (data : Provider.Payload) : Thrown + Provider.Response :=
  inr {| Provider.ok := true; Provider.status := 200;
         Provider.json := inr data |}.

(** A computation that wrote to the notification channel. *)
Definition notifies {A : Type} (m : M A) : Prop :=
  exists message type, In (Toast message type) (effects m).

(** A Number that [||] replaces by the default and [??] keeps: [NaN] and
    zero. *)
Definition falsyNumber (v : jsval Q) : bool :=
  match v with
  | Num NaN => true
  | Num (Fin q) => Qis_zero q
  | _ => false
  end.

(** ** Readings

    The normalized snapshot of the specification: integer temperature,
    precipitation, wind speed and UV index, and the condition text. *)

Module Reading.
Record t : Type := mk {
  temperatureC : Z;
  condition : string;
  precipitationPct : Z;
  windSpeedKmh : Z;
  uvIndex : Z
}.
End Reading.

(** The weather object [getWeatherData] builds for a reading: the same
    template strings, filled with the reading's integers. *)
Definition weatherOf (r : Reading.t) : Weather :=
  {| temperature := Number_toString (Fin (Reading.temperatureC r)) ++ "°C";
     condition := Reading.condition r;
     precipitation :=
       Number_toString (Fin (Reading.precipitationPct r)) ++ "%";
     windSpeed := Number_toString (Fin (Reading.windSpeedKmh r)) ++ " km/h";
     uvIndex :=
       Number_toString (Fin (Reading.uvIndex r))
         ++ " (" ++ getUVDescription (Fin (Reading.uvIndex r)) ++ ")" |}.

(** The provider payload that carries a reading. *)
Definition payloadOf (r : Reading.t) : Provider.Payload :=
  {| Provider.error := None;
     Provider.current :=
       Some {| Provider.temperature := Num (Fin (Reading.temperatureC r));
               Provider.weather_descriptions := Some [Reading.condition r];
               Provider.precip := Num (Fin (Reading.precipitationPct r));
               Provider.wind_speed := Num (Fin (Reading.windSpeedKmh r));
               Provider.uv_index :=
                 Num (Fin (inject_Z (Reading.uvIndex r))) |} |}.

(** ** The scoring rules as the specification words them *)

Module Spec.

Definition temperatureScore (t : Z) : Z :=
  if (t <? 5) || (t >? 35) then 2
  else if (t <? 10) || (t >? 30) then 1
  else 0.

Definition precipitationScore (p : Z) : Z :=
  if p >? 70 then 2 else if p >? 30 then 1 else 0.

Definition windScore (w : Z) : Z :=
  if w >? 25 then 2 else if w >? 15 then 1 else 0.

Definition score (r : Reading.t) : Z :=
  temperatureScore (Reading.temperatureC r)
  + precipitationScore (Reading.precipitationPct r)
  + windScore (Reading.windSpeedKmh r).

(** The packing rules, in rule order. *)
Definition packingList (r : Reading.t) : list string :=
  ["Water bottle"]
    ++ (if Reading.precipitationPct r >? 20
        then ["Umbrella"; "Waterproof jacket"] else [])
    ++ (if Reading.temperatureC r <? 15
        then ["Warm jacket"; "Blanket"] else [])
    ++ (if Reading.temperatureC r >? 25
        then ["Hat"; "Light clothing"] else [])
    ++ (if Reading.uvIndex r >? 5
        then ["Sunscreen"; "Sunglasses"] else [])
    ++ (if Reading.windSpeedKmh r >? 15 then ["Windbreaker"] else []).

(** [clamp(x, lo, hi)] on an integral Number. *)
Definition clamp (x : number Z) (lo hi : Z) : number Z :=
  match x with
  | NaN => NaN
  | NegInfinity => Fin lo
  | Infinity => Fin hi
  | Fin z => Fin (if z <? lo then lo else if z >? hi then hi else z)
  end.

(** [clamp(round(rawUv ?? 5), 1, 11)]. *)
Definition uvIndex (rawUv : jsval Q) : number Z :=
  clamp (Math_round (nullish_default rawUv 5%Q)) 1 11.

End Spec.

(** ** Lookup tables *)

(** What [obj[key]] evaluates to on an object literal whose values are
    strings: the own property, or else a member inherited from
    [Object.prototype] (a function or an object, never a string). *)
Inductive jsprop : Type :=
| PString (s : string)
| PBuiltin (name : string).

Definition Object_prototype_keys : list string :=
  [ "constructor"; "__defineGetter__"; "__defineSetter__"; "hasOwnProperty";
    "__lookupGetter__"; "__lookupSetter__"; "isPrototypeOf";
    "propertyIsEnumerable"; "toString"; "valueOf"; "__proto__";
    "toLocaleString" ].

(** [obj[key]]; [None] is [undefined]. *)
Definition lookup (obj : list (string * string)) (key : string)
  : option jsprop :=
  match find (fun kv => String.eqb (fst kv) key) obj with
  | Some kv => Some (PString (snd kv))
  | None =>
      if existsb (String.eqb key) Object_prototype_keys
      then Some (PBuiltin key)
      else None
  end.

(** [p || d] on a looked-up property: [undefined] and the empty string are
    falsy. *)
Definition or_prop (p : option jsprop) (d : string) : jsprop :=
  match p with
  | None | Some (PString EmptyString) => PString d
  | Some v => v
  end.

(** The string a risk level is in the source. *)
Definition RiskLevel_string (r : RiskLevel) : string :=
  match r with
  | low => "low"
  | medium => "medium"
  | high => "high"
  end.

Definition getRiskBadgeClass (riskLevel : string) : jsprop :=
  let classMap :=
    [ ("low", "bg-success");
      ("medium", "bg-warning text-dark");
      ("high", "bg-danger") ] in
  or_prop (lookup classMap riskLevel) "bg-secondary".

Definition getRiskIcon (riskLevel : string) : jsprop :=
  let iconMap :=
    [ ("low", "bi-check-circle-fill");
      ("medium", "bi-exclamation-triangle-fill");
      ("high", "bi-x-circle-fill") ] in
  or_prop (lookup iconMap riskLevel) "bi-info-circle-fill".

Definition getItemIcon (item : string) : jsprop :=
  let iconMap :=
    [ ("Umbrella", "umbrella");
      ("Light jacket", "coat-hanger");
      ("Sunscreen", "sun");
      ("Water bottle", "droplet");
      ("Picnic blanket", "grid-3x3");
      ("Hat", "person-badge");
      ("Sunglasses", "eyeglasses");
      ("Waterproof jacket", "shield-check");
      ("Warm jacket", "thermometer-low");
      ("Windbreaker", "wind");
      ("Sports gear", "bag") ] in
  or_prop (lookup iconMap item) "check-circle".

(** ** validateForm *)

(** [s.trimEnd()] and [s.trim()], on the white space of [isWhiteSpace].
    The Unicode white space that JavaScript strips as well (U+00A0, U+FEFF,
    U+2028, ...) is not ASCII, so on ASCII strings this is [trim] exactly. *)
Fixpoint trimEnd (s : string) : string :=
  match s with
  | EmptyString => EmptyString
  | String c s' =>
      match trimEnd s' with
      | EmptyString =>
          if isWhiteSpace c then EmptyString else String c EmptyString
      | kept => String c kept
      end
  end.

Definition trim (s : string) : string := trimEnd (trimStart s).

(** [!s] on a string. *)
Definition isEmptyString (s : string) : bool :=
  match s with
  | EmptyString => true
  | String _ _ => false
  end.

Module Form.

(** The values read from the event form. *)
Record FormData : Type := mkFormData {
  name : string;
  location : string;
  date : string;
  time : string
}.

End Form.

Section Validation.

(** The time value of [new Date(s)], [NaN] for an invalid date, and the time
    value of [new Date()]. *)
Variable Date_parse : string -> number Z.
Variable now : Z.

Definition validateForm (formData : Form.FormData) : M bool :=
  (if isEmptyString (trim (Form.name formData)) then
     showErrorMessage "Please enter an event name" ;; ret false
   else if isEmptyString (trim (Form.location formData)) then
     showErrorMessage "Please enter a location" ;; ret false
   else if isEmptyString (Form.date formData) then
     showErrorMessage "Please select a date" ;; ret false
   else if isEmptyString (Form.time formData) then
     showErrorMessage "Please select a time" ;; ret false
   else
     let selectedDate :=
       Date_parse (Form.date formData ++ "T" ++ Form.time formData) in
     if (selectedDate <= now)%js then
       showErrorMessage "Please select a future date and time" ;; ret false
     else ret true)%eff.

End Validation.

(** ** Further notions used in the statements *)

(** The order low < medium < high. *)
Definition rank (r : RiskLevel) : Z :=
  match r with
  | low => 0
  | medium => 1
  | high => 2
  end.

Definition isToast (e : Effect) : bool :=
  match e with
  | Toast _ _ => true
  | _ => false
  end.

(** How many notifications a computation showed. *)
Definition toasts {A : Type} (m : M A) : nat :=
  List.length (filter isToast (effects m)).

(** The payload whose [current] section holds the given values. *)
Definition currentPayload (c : Provider.Current) : Provider.Payload :=
  {| Provider.error := None; Provider.current := Some c |}.

(** ** Numbers that are not integers *)







(** The value of the digits after the point: [0.d1 d2 ...]. *)
Fixpoint fractionValue (f : Decimal.uint) : Q :=
  match f with
  | Decimal.Nil => 0
  | Decimal.D0 f' => (0 + fractionValue f') / 10
  | Decimal.D1 f' => (1 + fractionValue f') / 10
  | Decimal.D2 f' => (2 + fractionValue f') / 10
  | Decimal.D3 f' => (3 + fractionValue f') / 10
  | Decimal.D4 f' => (4 + fractionValue f') / 10
  | Decimal.D5 f' => (5 + fractionValue f') / 10
  | Decimal.D6 f' => (6 + fractionValue f') / 10
  | Decimal.D7 f' => (7 + fractionValue f') / 10
  | Decimal.D8 f' => (8 + fractionValue f') / 10
  | Decimal.D9 f' => (9 + fractionValue f') / 10
  end%Q.

(** The value of a Number printed without exponent. *)
Definition plainValue (i : Decimal.int) (f : Decimal.uint) : Q :=
  match i with
  | Decimal.Pos w => inject_Z (Z.of_uint w) + fractionValue f
  | Decimal.Neg w => - (inject_Z (Z.of_uint w) + fractionValue f)
  end%Q.

Definition value (d : Decimal.decimal) : Q :=
  match d with
  | Decimal.Decimal i f => plainValue i f
  | Decimal.DecimalExp i f e => plainValue i f * 10 ^ Z.of_int e
  end%Q.


(** A reading whose temperature, precipitation and wind speed are any finite
    Numbers; the UV index is an integer. *)
Module NumberReading.
Record t : Type := mk {
  temperatureC : Decimal.decimal;
  condition : string;
  precipitationPct : Decimal.decimal;
  windSpeedKmh : Decimal.decimal;
  uvIndex : Z
}.
End NumberReading.



(** The packing rules of the specification on the values themselves. *)
Module SpecNumbers.

Definition gt (x : Q) (k : Z) : bool := negb (Qle_bool x (inject_Z k)).
Definition lt (x : Q) (k : Z) : bool := negb (Qle_bool (inject_Z k) x).

Definition packingList (r : NumberReading.t) : list string :=
  ["Water bottle"]
    ++ (if gt (value (NumberReading.precipitationPct r)) 20
        then ["Umbrella"; "Waterproof jacket"] else [])
    ++ (if lt (value (NumberReading.temperatureC r)) 15
        then ["Warm jacket"; "Blanket"] else [])
    ++ (if gt (value (NumberReading.temperatureC r)) 25
        then ["Hat"; "Light clothing"] else [])
    ++ (if NumberReading.uvIndex r >? 5
        then ["Sunscreen"; "Sunglasses"] else [])
    ++ (if gt (value (NumberReading.windSpeedKmh r)) 15
        then ["Windbreaker"] else []).

End SpecNumbers.

(** ** Domains on which the string model is exact *)

(** [Number.isSafeInteger]: up to 2^53 - 1 in magnitude, where
    [Number::toString] prints every digit of the integer. *)
Definition isSafeInteger (z : Z) : bool :=
  Z.abs z <=? 9007199254740991.

(** A string of ASCII characters only: it holds none of the Unicode white
    space that [trim] strips besides [isWhiteSpace]. *)
Definition isAsciiString (s : string) : bool :=
  forallb (fun c => (nat_of_ascii c <? 128)%nat) (list_ascii_of_string s).

(** What [`${v || 0}` ++ unit] is, case by case on the provider's value:
    "0" for a missing, null, NaN or zero value, the decimal digits of a safe
    integer, the name of an infinity. *)
Definition printsWithDefault (v : jsval Z) (unit text : string) : Prop :=
  match v with
  | Undefined | Null | Num NaN => text = ("0" ++ unit)%string
  | Num NegInfinity => text = ("-Infinity" ++ unit)%string
  | Num Infinity => text = ("Infinity" ++ unit)%string
  | Num (Fin z) =>
      if z =? 0 then text = ("0" ++ unit)%string
      else if isSafeInteger z
           then text = (NilZero.string_of_int (Z.to_int z) ++ unit)%string
           else True
  end.

(** ** Auxiliary notions used in the statements *)

Definition isDecimalDigit (c : ascii) : bool :=
  match c with
  | "0" | "1" | "2" | "3" | "4" | "5" | "6" | "7" | "8" | "9" => true
  | _ => false
  end%char.

(** A suffix that ends a decimal numeral for [parseInt]: it is empty or
    starts with something that is neither a digit nor the [x] of a [0x]
    prefix. *)
Definition delimits (suffix : string) : bool :=
  match suffix with
  | EmptyString => true
  | String c _ =>
      negb (isDecimalDigit c || Ascii.eqb c "x" || Ascii.eqb c "X")
  end.

(** The [0x] test of [parseDigits]. *)
Definition hexMarked (S : string) : bool :=
  match S with
  | String "0" (String "x" _) | String "0" (String "X" _) => true
  | _ => false
  end.

(** The total the classifier compares with its thresholds. *)
Definition totalRisk (weather : Weather) : Z :=
  temperatureRisk (parseInt weather.(temperature)) 0
  + precipitationRisk (parseInt weather.(precipitation)) 0
  + windRisk (parseInt weather.(windSpeed)) 0.

(** An item that occurs at least twice. *)
Definition hasDuplicate (items : list string) : Prop :=
  exists item, (2 <= count_occ string_dec items item)%nat.

(** ** Proof automation *)

(** Case analysis on the eight bits of a character. *)
Ltac each_ascii c := destruct c as [[] [] [] [] [] [] [] []].

(** Case analysis on every integer comparison of the goal. *)
Ltac split_comparisons :=
  repeat match goal with
    | |- context [(?a <? ?b)%Z] => destruct (Z.ltb_spec a b)
    | |- context [(?a <=? ?b)%Z] => destruct (Z.leb_spec a b)
    end.

(** Case analysis on the five conditions of the packing rules. *)
Ltac each_rule weather :=
  destruct (parseInt weather.(precipitation) > 20)%js,
    (parseInt weather.(temperature) < 15)%js,
    (parseInt weather.(temperature) > 25)%js,
    (parseInt weather.(uvIndex) > 5)%js,
    (parseInt weather.(windSpeed) > 15)%js.

(** Membership of a string literal in a list of literals, both ways. *)
Ltac decide_membership :=
  simpl; split; intro H;
  repeat match goal with
    | H : _ \/ _ |- _ => destruct H as [H|H]
    | H : False |- _ => destruct H
    | H : @eq string _ _ |- _ => discriminate H
    | H : @eq bool _ _ |- _ => discriminate H
    end;
  try reflexivity; tauto.

(** [NoDup] of a list of string literals. *)
Ltac distinct_strings :=
  repeat constructor; simpl; intuition discriminate.

(** * Properties *)

(** ** parseInt on the strings of the weather object *)

Example parseInt_celsius : parseInt "21°C" = Fin 21.
Proof. reflexivity. Qed.

Example parseInt_negative : parseInt "-3°C" = Fin (-3).
Proof. reflexivity. Qed.

Example parseInt_undefined : parseInt "undefined°C" = NaN.
Proof. reflexivity. Qed.

Example parseInt_uv : parseInt "7 (High)" = Fin 7.
Proof. reflexivity. Qed.

Example parseInt_hex : parseInt "  0x1F" = Fin 31.
Proof. reflexivity. Qed.

(** ** Reading a printed integer back *)

Lemma parseDigits_unmarked (sign : Z) (S : string) :
  hexMarked S = false ->
  parseDigits sign S =
  match decimalPrefix S with
  | Decimal.Nil => NaN
  | digits => Fin (sign * Z.of_uint digits)
  end.
Proof.
  destruct S as [|c [|c' rest]]; intro H.
  - reflexivity.
  - each_ascii c; reflexivity.
  - each_ascii c; try reflexivity.
    each_ascii c'; try reflexivity; discriminate H.
Qed.

Lemma delimits_decimalPrefix (suffix : string) :
  delimits suffix = true -> decimalPrefix suffix = Decimal.Nil.
Proof.
  destruct suffix as [|c rest]; [reflexivity|].
  each_ascii c; intro H; try reflexivity; discriminate H.
Qed.

Lemma decimalPrefix_printed (d : Decimal.uint) (suffix : string) :
  decimalPrefix suffix = Decimal.Nil ->
  decimalPrefix (NilEmpty.string_of_uint d ++ suffix) = d.
Proof.
  intro H; induction d; simpl; [exact H | f_equal; assumption ..].
Qed.

Lemma printed_unmarked (d : Decimal.uint) (suffix : string) :
  delimits suffix = true ->
  hexMarked (NilEmpty.string_of_uint d ++ suffix) = false.
Proof.
  intro H.
  destruct d as [|d|d|d|d|d|d|d|d|d|d]; try reflexivity.
  - destruct suffix as [|c rest]; [reflexivity|].
    each_ascii c; try reflexivity; discriminate H.
  - destruct d; try reflexivity.
    destruct suffix as [|c rest]; [reflexivity|].
    each_ascii c; try reflexivity; discriminate H.
Qed.

Lemma parseDigits_printed (sign : Z) (d : Decimal.uint) (suffix : string) :
  d <> Decimal.Nil ->
  delimits suffix = true ->
  parseDigits sign (NilEmpty.string_of_uint d ++ suffix)
  = Fin (sign * Z.of_uint d).
Proof.
  intros Hd Hs.
  rewrite parseDigits_unmarked by (apply printed_unmarked; exact Hs).
  rewrite decimalPrefix_printed by (apply delimits_decimalPrefix; exact Hs).
  destruct d; [contradiction Hd; reflexivity | reflexivity ..].
Qed.

Lemma parseInt_unsigned (d : Decimal.uint) (suffix : string) :
  d <> Decimal.Nil ->
  parseInt (NilEmpty.string_of_uint d ++ suffix)
  = parseDigits 1 (NilEmpty.string_of_uint d ++ suffix).
Proof.
  intro Hd; destruct d; [contradiction Hd; reflexivity | reflexivity ..].
Qed.

(** [parseInt] undoes [Number::toString] on integers, whatever follows the
    digits, as long as it does not continue the numeral. *)
Lemma parseInt_Number_toString (z : Z) (suffix : string) :
  delimits suffix = true ->
  parseInt (Number_toString (Fin z) ++ suffix) = Fin z.
Proof.
  intro Hs. unfold Number_toString.
  destruct z as [|p|p]; cbn [Z.to_int NilZero.string_of_int].
  - change (NilZero.string_of_uint Decimal.zero)
      with (NilEmpty.string_of_uint (Decimal.D0 Decimal.Nil)).
    rewrite parseInt_unsigned by discriminate.
    rewrite parseDigits_printed by (discriminate || exact Hs).
    reflexivity.
  - pose proof (DecimalPos.Unsigned.to_uint_nonnil p) as Hnn.
    assert (E : NilZero.string_of_uint (Pos.to_uint p)
                = NilEmpty.string_of_uint (Pos.to_uint p))
      by (unfold NilZero.string_of_uint; destruct (Pos.to_uint p);
          [contradiction Hnn|..]; reflexivity).
    rewrite E, parseInt_unsigned, parseDigits_printed by assumption.
    f_equal.
    change (Z.of_uint (Pos.to_uint p)) with (Z.of_int (Z.to_int (Zpos p))).
    rewrite DecimalZ.of_to. lia.
  - pose proof (DecimalPos.Unsigned.to_uint_nonnil p) as Hnn.
    assert (E : NilZero.string_of_uint (Pos.to_uint p)
                = NilEmpty.string_of_uint (Pos.to_uint p))
      by (unfold NilZero.string_of_uint; destruct (Pos.to_uint p);
          [contradiction Hnn|..]; reflexivity).
    rewrite E.
    change (parseInt (String "-" (NilEmpty.string_of_uint (Pos.to_uint p))
                        ++ suffix))
      with (parseDigits (-1) (NilEmpty.string_of_uint (Pos.to_uint p)
                                ++ suffix)).
    rewrite parseDigits_printed by assumption.
    f_equal.
    change (Z.of_uint (Pos.to_uint p)) with (Z.of_int (Z.to_int (Zpos p))).
    rewrite DecimalZ.of_to. lia.
Qed.

(** The engine reads a reading's integers back from its weather object. *)
Lemma parseInt_temperature (r : Reading.t) :
  parseInt (temperature (weatherOf r)) = Fin (Reading.temperatureC r).
Proof. apply parseInt_Number_toString; reflexivity. Qed.

Lemma parseInt_precipitation (r : Reading.t) :
  parseInt (precipitation (weatherOf r)) = Fin (Reading.precipitationPct r).
Proof. apply parseInt_Number_toString; reflexivity. Qed.

Lemma parseInt_windSpeed (r : Reading.t) :
  parseInt (windSpeed (weatherOf r)) = Fin (Reading.windSpeedKmh r).
Proof. apply parseInt_Number_toString; reflexivity. Qed.

Lemma parseInt_uvIndex (r : Reading.t) :
  parseInt (uvIndex (weatherOf r)) = Fin (Reading.uvIndex r).
Proof. apply parseInt_Number_toString; reflexivity. Qed.

Lemma Qfloor_half (z : Z) : Qfloor (inject_Z z + (1 # 2))%Q = z.
Proof.
  unfold Qfloor, Qplus, inject_Z; simpl.
  replace (z * 2 + 1) with (1 + z * 2) by lia.
  rewrite Z.div_add by lia. reflexivity.
Qed.

(** [weatherOf r] is what the source builds from the payload that carries
    [r], when the UV index is already in range and the condition text is not
    empty. *)
Lemma normalize_payloadOf (r : Reading.t) :
  1 <= Reading.uvIndex r <= 11 ->
  Reading.condition r <> EmptyString ->
  normalize (payloadOf r) = ([], inr (weatherOf r)).
Proof.
  intros Huv Hc. unfold normalize, payloadOf, weatherOf. simpl.
  assert (U : normalizeUvIndex (Num (Fin (inject_Z (Reading.uvIndex r))))
              = Fin (Reading.uvIndex r)).
  { unfold normalizeUvIndex, or_default, Qis_zero. simpl.
    destruct (Z.eqb_spec (Reading.uvIndex r) 0); [lia|].
    unfold Math_round. rewrite Qfloor_half. simpl. f_equal. lia. }
  rewrite U. unfold ret, Zis_zero.
  destruct (Reading.condition r); [contradiction Hc; reflexivity|].
  destruct (Z.eqb_spec (Reading.precipitationPct r) 0) as [->|];
    destruct (Z.eqb_spec (Reading.windSpeedKmh r) 0) as [->|];
    reflexivity.
Qed.

Create Rewrite HintDb reading.
#[local] Hint Rewrite parseInt_temperature parseInt_precipitation
  parseInt_windSpeed parseInt_uvIndex : reading.

(** ** The scenarios of the specification, run on the code *)

Example scenario_extreme :
  let weather := weatherOf (Reading.mk 38 "Sunny" 80 30 9) in
  calculateRiskLevel weather = high /\
  generatePackingList weather
  = ["Water bottle"; "Umbrella"; "Waterproof jacket"; "Hat";
     "Light clothing"; "Sunscreen"; "Sunglasses"; "Windbreaker"].
Proof. split; reflexivity. Qed.

Example scenario_mild :
  let weather := weatherOf (Reading.mk 20 "Clear" 0 0 1) in
  calculateRiskLevel weather = low /\
  generatePackingList weather = ["Water bottle"].
Proof. split; reflexivity. Qed.

Example scenario_unparsable :
  let weather :=
    mkWeather "undefined°C" "Unknown" "0%" "0 km/h" "5 (Moderate)" in
  calculateRiskLevel weather = low /\
  generatePackingList weather = ["Water bottle"].
Proof. split; reflexivity. Qed.

Example uv_fractional_negative :
  normalizeUvIndex (Num (Fin (-7 # 2)%Q)) = Fin 1.
Proof. reflexivity. Qed.

Example uv_tie_rounds_up : normalizeUvIndex (Num (Fin (13 # 2)%Q)) = Fin 7.
Proof. reflexivity. Qed.

Example uv_small_fraction : normalizeUvIndex (Num (Fin (2 # 5)%Q)) = Fin 1.
Proof. reflexivity. Qed.

Example uv_above_range : normalizeUvIndex (Num (Fin 40%Q)) = Fin 11.
Proof. reflexivity. Qed.

Example uv_missing : normalizeUvIndex Undefined = Fin 5.
Proof. reflexivity. Qed.

Example normalize_example :
  normalize (payloadOf (Reading.mk 10 "Sunny" 25 5 3))
  = ([], inr (mkWeather "10°C" "Sunny" "25%" "5 km/h" "3 (Moderate)")).
Proof. reflexivity. Qed.

(** ** Risk classifier *)

(** Each block adds its own contribution to the score it receives. *)
Lemma temperatureRisk_adds (temp : number Z) (s : Z) :
  temperatureRisk temp s = s + temperatureRisk temp 0.
Proof.
  unfold temperatureRisk.
  destruct (_ || _); [lia|]. destruct (_ || _); lia.
Qed.

Lemma precipitationRisk_adds (precip : number Z) (s : Z) :
  precipitationRisk precip s = s + precipitationRisk precip 0.
Proof.
  unfold precipitationRisk.
  destruct (precip > 70)%js; [lia|]. destruct (precip > 30)%js; lia.
Qed.

Lemma windRisk_adds (wind : number Z) (s : Z) :
  windRisk wind s = s + windRisk wind 0.
Proof.
  unfold windRisk.
  destruct (wind > 25)%js; [lia|]. destruct (wind > 15)%js; lia.
Qed.

Lemma temperatureRisk_range (temp : number Z) :
  0 <= temperatureRisk temp 0 <= 2.
Proof.
  unfold temperatureRisk.
  destruct (_ || _); [lia|]. destruct (_ || _); lia.
Qed.

Lemma precipitationRisk_range (precip : number Z) :
  0 <= precipitationRisk precip 0 <= 2.
Proof.
  unfold precipitationRisk.
  destruct (precip > 70)%js; [lia|]. destruct (precip > 30)%js; lia.
Qed.

Lemma windRisk_range (wind : number Z) :
  0 <= windRisk wind 0 <= 2.
Proof.
  unfold windRisk.
  destruct (wind > 25)%js; [lia|]. destruct (wind > 15)%js; lia.
Qed.

Lemma calculateRiskLevel_total (weather : Weather) :
  calculateRiskLevel weather =
  if totalRisk weather >=? 3 then high
  else if totalRisk weather >=? 1 then medium
  else low.
Proof.
  unfold calculateRiskLevel, totalRisk.
  rewrite (windRisk_adds _ (precipitationRisk _ _)).
  rewrite (precipitationRisk_adds _ (temperatureRisk _ _)).
  reflexivity.
Qed.

(** On an integer reading the blocks compute the specification's scores. *)
Lemma totalRisk_score (r : Reading.t) :
  totalRisk (weatherOf r) = Spec.score r.
Proof.
  unfold totalRisk, Spec.score.
  autorewrite with reading.
  unfold temperatureRisk, precipitationRisk, windRisk,
    Spec.temperatureScore, Spec.precipitationScore, Spec.windScore,
    js_gt, js_lt.
  rewrite !Z.gtb_ltb.
  split_comparisons; simpl; lia.
Qed.

(** C1.  For every reading with integer temperature, precipitation and wind,
    [calculateRiskLevel] answers [high] exactly when the specification's
    score is at least 3, [medium] exactly when it is 1 or 2, and [low]
    exactly when it is 0; the score is the sum of the temperature,
    precipitation and wind bands of [Spec], severe band first, and a
    precipitation of exactly 70 scores +1 both in the specification's rule
    and in the code's block. *)
Theorem calculateRiskLevel_score_bands (r : Reading.t) :
  (calculateRiskLevel (weatherOf r) = high <-> 3 <= Spec.score r) /\
  (calculateRiskLevel (weatherOf r) = medium <->
     Spec.score r = 1 \/ Spec.score r = 2) /\
  (calculateRiskLevel (weatherOf r) = low <-> Spec.score r = 0) /\
  Spec.precipitationScore 70 = 1 /\
  precipitationRisk (parseInt "70%") 0 = 1.
Proof.
  rewrite calculateRiskLevel_total, totalRisk_score.
  assert (0 <= Spec.score r).
  { rewrite <- totalRisk_score. unfold totalRisk.
    pose proof (temperatureRisk_range (parseInt (temperature (weatherOf r)))).
    pose proof
      (precipitationRisk_range (parseInt (precipitation (weatherOf r)))).
    pose proof (windRisk_range (parseInt (windSpeed (weatherOf r)))).
    lia. }
  rewrite !Z.geb_leb.
  destruct (Z.leb_spec 3 (Spec.score r));
    [|destruct (Z.leb_spec 1 (Spec.score r))];
    repeat split; intros; try discriminate; try reflexivity; lia.
Qed.

(** C9.  Each of the three factors adds at most 2 to the score, so
    [calculateRiskLevel] answers [high] only when at least two of them add
    something: whenever two of the three contributions are zero the answer
    is not [high]. *)
Theorem high_needs_two_factors (weather : Weather) :
  let t := temperatureRisk (parseInt weather.(temperature)) 0 in
  let p := precipitationRisk (parseInt weather.(precipitation)) 0 in
  let w := windRisk (parseInt weather.(windSpeed)) 0 in
  (t <= 2 /\ p <= 2 /\ w <= 2) /\
  (calculateRiskLevel weather = high ->
   (t <> 0 /\ p <> 0) \/ (t <> 0 /\ w <> 0) \/ (p <> 0 /\ w <> 0)).
Proof.
  intros t p w.
  pose proof (temperatureRisk_range (parseInt weather.(temperature))) as Ht.
  pose proof
    (precipitationRisk_range (parseInt weather.(precipitation))) as Hp.
  pose proof (windRisk_range (parseInt weather.(windSpeed))) as Hw.
  fold t in Ht. fold p in Hp. fold w in Hw.
  split; [lia|].
  rewrite calculateRiskLevel_total. unfold totalRisk. fold t p w.
  rewrite !Z.geb_leb.
  destruct (Z.leb_spec 3 (t + p + w)) as [H3|H3].
  - intros _. lia.
  - destruct (Z.leb_spec 1 (t + p + w)); discriminate.
Qed.

(** A reading with all three factors extreme is [high], and two of its
    factors contribute. *)
Lemma high_needs_two_factors_witness :
  let weather := weatherOf (Reading.mk 38 "Sunny" 80 30 9) in
  calculateRiskLevel weather = high /\
  ((temperatureRisk (parseInt weather.(temperature)) 0 <> 0 /\
    precipitationRisk (parseInt weather.(precipitation)) 0 <> 0) \/
   (temperatureRisk (parseInt weather.(temperature)) 0 <> 0 /\
    windRisk (parseInt weather.(windSpeed)) 0 <> 0) \/
   (precipitationRisk (parseInt weather.(precipitation)) 0 <> 0 /\
    windRisk (parseInt weather.(windSpeed)) 0 <> 0)).
Proof.
  intro weather.
  assert (H : calculateRiskLevel weather = high) by reflexivity.
  split; [exact H|].
  exact (proj2 (high_needs_two_factors weather) H).
Defined.

(** ** Packing list *)

(** The list is the water bottle followed by what each rule appends, in the
    order of the rules. *)
Lemma generatePackingList_rules (weather : Weather) :
  generatePackingList weather =
  "Water bottle"
    :: (if (parseInt weather.(precipitation) > 20)%js
        then ["Umbrella"; "Waterproof jacket"] else [])
    ++ (if (parseInt weather.(temperature) < 15)%js
        then ["Warm jacket"; "Blanket"] else [])
    ++ (if (parseInt weather.(temperature) > 25)%js
        then ["Hat"; "Light clothing"] else [])
    ++ (if (parseInt weather.(uvIndex) > 5)%js
        then ["Sunscreen"; "Sunglasses"] else [])
    ++ (if (parseInt weather.(windSpeed) > 15)%js
        then ["Windbreaker"] else []).
Proof.
  unfold generatePackingList, push.
  destruct (parseInt weather.(precipitation) > 20)%js,
    (parseInt weather.(temperature) < 15)%js,
    (parseInt weather.(temperature) > 25)%js,
    (parseInt weather.(uvIndex) > 5)%js,
    (parseInt weather.(windSpeed) > 15)%js; reflexivity.
Qed.

(** No Number is both below 15 and above 25. *)
Lemma cold_hot_exclusive (temp : number Z) :
  (temp < 15)%js && (temp > 25)%js = false.
Proof.
  destruct temp as [| | |z]; try reflexivity.
  unfold js_lt, js_gt. rewrite Z.gtb_ltb.
  destruct (Z.ltb_spec z 15), (Z.ltb_spec 25 z); try reflexivity; lia.
Qed.

Lemma NoDup_hasDuplicate (items : list string) :
  NoDup items -> ~ hasDuplicate items.
Proof.
  intros H [item Hc].
  rewrite (NoDup_count_occ string_dec) in H.
  specialize (H item). lia.
Qed.

(** The rules append pairwise different items and each rule runs once. *)
Lemma generatePackingList_distinct (weather : Weather) :
  NoDup (generatePackingList weather).
Proof.
  rewrite generatePackingList_rules.
  destruct (parseInt weather.(precipitation) > 20)%js,
    (parseInt weather.(temperature) < 15)%js,
    (parseInt weather.(temperature) > 25)%js,
    (parseInt weather.(uvIndex) > 5)%js,
    (parseInt weather.(windSpeed) > 15)%js; distinct_strings.
Qed.

(** Integer readings: the packing list contains "Water bottle" and is the
    specification's rule-ordered list on the reading's integers; for
    temperature 10, precipitation 25, wind 5 and UV index 3 it is exactly
    water bottle, umbrella, waterproof jacket, warm jacket, blanket. *)
Theorem generatePackingList_rule_order (r : Reading.t) (cond : string) :
  generatePackingList (weatherOf r) = Spec.packingList r /\
  In "Water bottle" (generatePackingList (weatherOf r)) /\
  generatePackingList (weatherOf (Reading.mk 10 cond 25 5 3))
  = ["Water bottle"; "Umbrella"; "Waterproof jacket"; "Warm jacket";
     "Blanket"].
Proof.
  assert (E : forall r', generatePackingList (weatherOf r')
                         = Spec.packingList r').
  { intro r'. rewrite generatePackingList_rules.
    autorewrite with reading. reflexivity. }
  split; [apply E|]. split.
  - rewrite E. left. reflexivity.
  - rewrite E. reflexivity.
Qed.

(** *** Readings that are not integers *)












(** C10.  For every weather object the packing list starts with
    "Water bottle" and has between 1 and 8 items: the cold rule
    (temperature < 15) and the hot rule (temperature > 25) never both fire,
    so at most 1 + 2 + 2 + 2 + 1 items are appended. *)
Theorem generatePackingList_length (weather : Weather) :
  (exists rest, generatePackingList weather = "Water bottle" :: rest) /\
  (1 <= List.length (generatePackingList weather) <= 8)%nat /\
  (parseInt weather.(temperature) < 15)%js
    && (parseInt weather.(temperature) > 25)%js = false.
Proof.
  pose proof (cold_hot_exclusive (parseInt weather.(temperature))) as X.
  rewrite generatePackingList_rules.
  split; [eexists; reflexivity|]. split; [|exact X].
  destruct (parseInt weather.(precipitation) > 20)%js,
    (parseInt weather.(temperature) < 15)%js,
    (parseInt weather.(temperature) > 25)%js,
    (parseInt weather.(uvIndex) > 5)%js,
    (parseInt weather.(windSpeed) > 15)%js;
    try discriminate X; simpl; lia.
Qed.

(** C6, as stated, fails: no reading gets a packing list with a repeated
    item. *)
Lemma no_reading_with_duplicate :
  ~ exists r : Reading.t, hasDuplicate (generatePackingList (weatherOf r)).
Proof.
  intros [r H].
  exact (NoDup_hasDuplicate _ (generatePackingList_distinct _) H).
Qed.

(** C6, amended.  For every weather object the packing list has no repeated
    item, although nothing removes duplicates: the rules append pairwise
    different items and each rule runs at most once. *)
Theorem generatePackingList_no_duplicate (weather : Weather) :
  NoDup (generatePackingList weather) /\
  ~ hasDuplicate (generatePackingList weather).
Proof.
  split; [apply generatePackingList_distinct|].
  apply NoDup_hasDuplicate, generatePackingList_distinct.
Qed.

(** ** Time slots *)

(** C2, as stated, fails on the labels: the slots are named in 12-hour
    form. *)
Lemma generateTimeSlots_labels_12h :
  let weather := weatherOf (Reading.mk 20 "Sunny" 0 0 1) in
  map time (generateTimeSlots weather) = ["10:00 AM"; "12:00 PM"; "2:00 PM"]
  /\ map time (generateTimeSlots weather) <> ["10:00"; "12:00"; "14:00"].
Proof.
  split; [reflexivity|]. vm_compute. discriminate.
Qed.

(** C2, amended.  For every weather object [generateTimeSlots] returns
    exactly the first 3 of the 5 candidate slots: "10:00 AM" with risk low,
    then "12:00 PM" and "2:00 PM" with the classifier's risk; the two
    discarded candidates are "4:00 PM", medium if the classifier's risk is
    low and high otherwise, and "6:00 PM" with risk low. *)
Theorem generateTimeSlots_first_three (weather : Weather) :
  let baseRisk := calculateRiskLevel weather in
  List.length (slots baseRisk) = 5%nat /\
  List.length (generateTimeSlots weather) = 3%nat /\
  generateTimeSlots weather = firstn 3 (slots baseRisk) /\
  generateTimeSlots weather =
    [ mkTimeSlot "10:00 AM" low;
      mkTimeSlot "12:00 PM" baseRisk;
      mkTimeSlot "2:00 PM" baseRisk ] /\
  skipn 3 (slots baseRisk) =
    [ mkTimeSlot "4:00 PM"
        (match baseRisk with low => medium | _ => high end);
      mkTimeSlot "6:00 PM" low ].
Proof.
  intro baseRisk. unfold generateTimeSlots. fold baseRisk.
  repeat split; destruct baseRisk; reflexivity.
Qed.

(** ** UV index *)

Lemma Math_clamp (x : number Z) :
  Math_min (Math_max x (Fin 1)) (Fin 11) = Spec.clamp x 1 11.
Proof.
  destruct x as [| | |z]; try reflexivity.
  simpl. f_equal.
  destruct (Z.ltb_spec z 1); [lia|].
  rewrite Z.gtb_ltb. destruct (Z.ltb_spec 11 z); lia.
Qed.

(** Every raw value below 3/2 other than zero is clamped to 1. *)
Lemma normalizeUvIndex_below_range (q : Q) :
  ~ (q == 0)%Q -> (q < 3 # 2)%Q ->
  normalizeUvIndex (Num (Fin q)) = Fin 1.
Proof.
  intros Hz Hq. unfold normalizeUvIndex, or_default, Qis_zero.
  destruct (Z.eqb_spec (Qnum q) 0) as [E|_].
  { contradiction Hz. unfold Qeq. simpl. rewrite E. reflexivity. }
  unfold Math_round.
  assert (F : Qfloor (q + (1 # 2)) < 2).
  { rewrite Zlt_Qlt. eapply Qle_lt_trans; [apply Qfloor_le|].
    change (inject_Z 2) with 2%Q. lra. }
  set (k := Qfloor (q + (1 # 2))) in *. simpl. f_equal. lia.
Qed.

(** C3.  The code departs from the claim at a raw UV index of 0, and only
    there among the finite values: [||] takes the zero for a missing value,
    so the default 5 goes through the rounding and the clamp where the
    claim's formula gives 1, and the weather object shows "5 (Moderate)".
    Every other value below 3/2 is clamped to 1 by the same line
    ([normalizeUvIndex_below_range]). *)
Lemma normalizeUvIndex_zero :
  normalizeUvIndex (Num (Fin 0%Q)) = Fin 5 /\
  Spec.uvIndex (Num (Fin 0%Q)) = Fin 1 /\
  normalizeUvIndex (Num (Fin 0%Q)) <> Spec.uvIndex (Num (Fin 0%Q)) /\
  exists weather,
    normalize
      {| Provider.error := None;
         Provider.current :=
           Some {| Provider.temperature := Num (Fin 12);
                   Provider.weather_descriptions := Some ["Clear"];
                   Provider.precip := Num (Fin 0);
                   Provider.wind_speed := Num (Fin 7);
                   Provider.uv_index := Num (Fin 0%Q) |} |}
    = ([], inr weather) /\
    uvIndex weather = "5 (Moderate)".
Proof.
  repeat split; try discriminate.
  eexists; split; reflexivity.
Qed.

(** The source line against the specification's formula:
    [clamp(round(rawUv || 5), 1, 11)] agrees with
    [clamp(round(rawUv ?? 5), 1, 11)] on every raw value except NaN and
    zero, where the default 5 is taken. *)
Theorem normalizeUvIndex_formula (rawUv : jsval Q) :
  normalizeUvIndex rawUv
  = Spec.clamp (Math_round (or_default Qis_zero rawUv 5%Q)) 1 11 /\
  normalizeUvIndex rawUv
  = if falsyNumber rawUv then Fin 5 else Spec.uvIndex rawUv.
Proof.
  unfold normalizeUvIndex. rewrite Math_clamp. split; [reflexivity|].
  unfold Spec.uvIndex.
  destruct rawUv as [| |[| | |q]]; try reflexivity.
  simpl. destruct (Qis_zero q); reflexivity.
Qed.

(** C4.  Whatever the provider sends as [uv_index] (absent, null, NaN,
    infinite, negative, fractional, zero, above 11), the normalized UV index
    is an integer between 1 and 11, and the weather object built from a
    payload with that value shows that integer: the engine reads it back
    with [parseInt]. *)
Theorem normalizeUvIndex_range (current : Provider.Current) :
  exists (z : Z) (weather : Weather),
    1 <= z <= 11 /\
    normalizeUvIndex (Provider.uv_index current) = Fin z /\
    normalize {| Provider.error := None; Provider.current := Some current |}
    = ([], inr weather) /\
    parseInt (uvIndex weather) = Fin z.
Proof.
  assert (R : exists z, normalizeUvIndex (Provider.uv_index current) = Fin z
                        /\ 1 <= z <= 11).
  { unfold normalizeUvIndex.
    destruct (Provider.uv_index current) as [| |[| | |q]];
      try (eexists; split; [reflexivity|lia]).
    simpl. destruct (Qis_zero q); simpl;
      (eexists; split; [reflexivity|lia]). }
  destruct R as [z [E Hz]].
  exists z. eexists. split; [exact Hz|]. split; [exact E|].
  split; [reflexivity|].
  simpl. rewrite E. apply parseInt_Number_toString. reflexivity.
Qed.

(** ** Failures of getWeatherData *)

Lemma try_catch_returned {A : Type} (body : M A) (handler : Thrown -> M A)
      (a : A) :
  outcome body = inr a -> try_catch body handler = body.
Proof.
  destruct body as [done [e|a']]; simpl; intro H; [discriminate H|].
  reflexivity.
Qed.

Lemma getWeatherData_rethrows (fetched : Thrown + Provider.Response)
      (err : Thrown) :
  outcome (getWeatherData_try fetched) = inl err ->
  getWeatherData fetched
  = (effects (getWeatherData_try fetched)
       ++ [ConsoleError "Weather API error:";
           Toast
             "Failed to fetch weather data. Please check your API key and connection."
             "error"],
     inl err).
Proof.
  unfold getWeatherData.
  destruct (getWeatherData_try fetched) as [done [e|w]]; simpl; intro H;
    [|discriminate H].
  injection H as ->. reflexivity.
Qed.

(** The [try] block has no effect when it returns. *)
Lemma getWeatherData_try_quiet (fetched : Thrown + Provider.Response)
      (weather : Weather) :
  outcome (getWeatherData_try fetched) = inr weather ->
  effects (getWeatherData_try fetched) = [].
Proof.
  unfold getWeatherData_try.
  destruct fetched as [e|response]; simpl; [discriminate|].
  destruct (Provider.ok response); simpl; [|discriminate].
  destruct (Provider.json response) as [e|data]; simpl; [discriminate|].
  unfold normalize.
  destruct (Provider.error data); simpl; [discriminate|].
  destruct (Provider.current data); simpl; [reflexivity|discriminate].
Qed.

(** C7, as stated, fails: on a provider error object the normalizing block
    itself shows an error toast, and [getWeatherData] shows a second one
    before it rethrows; on a missing [current] section [getWeatherData]
    shows the generic one. *)
Lemma getWeatherData_notifies :
  let refused :=
    {| Provider.error :=
         Some {| Provider.info := Some "Invalid access key" |};
       Provider.current := None |} in
  let empty := {| Provider.error := None; Provider.current := None |} in
  notifies (normalize refused) /\
  getWeatherData (responded refused)
  = ([ConsoleError "WeatherStack API error:";
      Toast "Weather API error: Invalid access key" "error";
      ConsoleError "Weather API error:";
      Toast
        "Failed to fetch weather data. Please check your API key and connection."
        "error"],
     inl (Error "Invalid access key")) /\
  notifies (getWeatherData (responded refused)) /\
  notifies (getWeatherData (responded empty)).
Proof.
  repeat split.
  - exists "Weather API error: Invalid access key", "error".
    simpl. right. left. reflexivity.
  - exists "Weather API error: Invalid access key", "error".
    simpl. right. left. reflexivity.
  - eexists _, "error". simpl. right. right. left. reflexivity.
Qed.

(** C7, amended.  [getWeatherData] has no side effect only when it
    succeeds.  When it fails it rethrows to its caller the very error its
    [try] block threw, and it reports the failure itself: the generic
    error toast is the last thing it does, after whatever the [try] block
    did.  For every answered request whose body parsed: with an error
    object it logs, shows "Weather API error: " followed by the provider's
    message (or "Unknown error"), logs again, shows the generic toast and
    throws the provider's message (or "Unknown API error"); with neither an
    error object nor a [current] section it warns, logs, shows the generic
    toast and throws "Invalid response format from weather API"; otherwise
    it returns a weather object and does nothing else. *)
Theorem getWeatherData_effects
        (fetched : Thrown + Provider.Response)
        (status : Z) (data : Provider.Payload) :
  match outcome (getWeatherData fetched) with
  | inr weather =>
      getWeatherData fetched = ([], inr weather)
  | inl err =>
      outcome (getWeatherData_try fetched) = inl err /\
      effects (getWeatherData fetched)
      = effects (getWeatherData_try fetched)
          ++ [ConsoleError "Weather API error:";
              Toast
                "Failed to fetch weather data. Please check your API key and connection."
                "error"] /\
      notifies (getWeatherData fetched)
  end /\
  let answered :=
    inr {| Provider.ok := true; Provider.status := status;
           Provider.json := inr data |} in
  match Provider.error data, Provider.current data with
  | Some error, _ =>
      getWeatherData answered
      = ([ ConsoleError "WeatherStack API error:";
           Toast
             ("Weather API error: "
                ++ match Provider.info error with
                   | Some (String a m) => String a m
                   | _ => "Unknown error"
                   end)
             "error";
           ConsoleError "Weather API error:";
           Toast
             "Failed to fetch weather data. Please check your API key and connection."
             "error" ],
         inl (Error match Provider.info error with
                    | Some (String a m) => String a m
                    | _ => "Unknown API error"
                    end))
  | None, None =>
      getWeatherData answered
      = ([ ConsoleWarn "Unexpected API response format:";
           ConsoleError "Weather API error:";
           Toast
             "Failed to fetch weather data. Please check your API key and connection."
             "error" ],
         inl (Error "Invalid response format from weather API"))
  | None, Some _ =>
      exists weather, getWeatherData answered = ([], inr weather)
  end.
Proof.
  split.
  - destruct (outcome (getWeatherData_try fetched)) as [err|weather] eqn:E.
    + rewrite (getWeatherData_rethrows _ _ E). simpl.
      split; [reflexivity|]. split; [reflexivity|].
      eexists _, "error". apply in_or_app. right. right. left. reflexivity.
    + unfold getWeatherData. rewrite (try_catch_returned _ _ _ E). rewrite E.
      pose proof (getWeatherData_try_quiet _ _ E) as Q.
      destruct (getWeatherData_try fetched) as [done r].
      simpl in *. subst. reflexivity.
  - intro answered. subst answered.
    unfold getWeatherData, getWeatherData_try, normalize. simpl.
    destruct (Provider.error data) as [error|];
      [|destruct (Provider.current data) as [current|]]; simpl.
    + destruct (Provider.info error) as [[|a m]|]; reflexivity.
    + eexists. reflexivity.
    + reflexivity.
Qed.

(** C8.  Normalizing a payload fails exactly when it carries an error object
    or has no [current] section: with an error object the failure is
    [ProviderError], the error with the provider's message or "Unknown API
    error", whatever else the payload holds; with neither it is
    [UpstreamError], "Invalid response format from weather API"; with a
    [current] section and no error object it returns a weather object
    without any effect.  In that object each field is defaulted on its own,
    whatever the other fields hold: the condition is the first description
    when there is a non-empty one and "Unknown" otherwise; precipitation
    reads "0%" and wind "0 km/h" when the provider's value is missing, null
    or zero, and the provider's own integer otherwise. *)
Theorem normalize_outcome (data : Provider.Payload) :
  ((exists err, outcome (normalize data) = inl err) <->
   (Provider.error data <> None \/ Provider.current data = None)) /\
  match Provider.error data, Provider.current data with
  | Some error, _ =>
      outcome (normalize data) = inl (ProviderError error) /\
      ProviderError error
      = Error match Provider.info error with
              | Some (String a m) => String a m
              | _ => "Unknown API error"
              end
  | None, None =>
      outcome (normalize data) = inl UpstreamError /\
      UpstreamError = Error "Invalid response format from weather API"
  | None, Some c =>
      exists weather,
        normalize data = ([], inr weather) /\
        condition weather
        = match Provider.weather_descriptions c with
          | Some (String a d :: _) => String a d
          | _ => "Unknown"
          end /\
        printsWithDefault (Provider.precip c) "%" (precipitation weather) /\
        printsWithDefault (Provider.wind_speed c) " km/h"
                          (windSpeed weather) /\
        (match Provider.precip c with
         | Undefined | Null | Num (Fin 0) =>
             parseInt (precipitation weather) = Fin 0
         | _ => True
         end) /\
        (match Provider.wind_speed c with
         | Undefined | Null | Num (Fin 0) =>
             parseInt (windSpeed weather) = Fin 0
         | _ => True
         end)
  end.
Proof.
  split.
  - unfold normalize.
    destruct (Provider.error data) as [error|];
      [|destruct (Provider.current data) as [current|]]; simpl.
    + split; [intros _; left; discriminate | intros _; eexists; reflexivity].
    + split; [intros [err H]; discriminate H|].
      intros [H|H]; [contradiction H; reflexivity | discriminate H].
    + split; [intros _; right; reflexivity | intros _; eexists; reflexivity].
  - unfold normalize.
    destruct (Provider.error data) as [error|];
      [|destruct (Provider.current data) as [c|]]; simpl.
    + split; [reflexivity|].
      unfold ProviderError. destruct (Provider.info error) as [[|a m]|];
        reflexivity.
    + eexists. split; [reflexivity|]. simpl.
      split; [|split; [|split; [|split]]].
      * unfold first_description.
        destruct (Provider.weather_descriptions c) as [[|[|a d] rest]|];
          reflexivity.
      * destruct (Provider.precip c) as [| |[| | |z]]; try reflexivity.
        unfold printsWithDefault, or_default, Zis_zero.
        destruct (z =? 0); [reflexivity|].
        destruct (isSafeInteger z); [reflexivity | exact I].
      * destruct (Provider.wind_speed c) as [| |[| | |z]]; try reflexivity.
        unfold printsWithDefault, or_default, Zis_zero.
        destruct (z =? 0); [reflexivity|].
        destruct (isSafeInteger z); [reflexivity | exact I].
      * destruct (Provider.precip c) as [| |[| | |[|z|z]]];
          try exact I; reflexivity.
      * destruct (Provider.wind_speed c) as [| |[| | |[|z|z]]];
          try exact I; reflexivity.
    + split; reflexivity.
Qed.

(** * Further properties of the engine *)

(** ** Risk levels of integer readings *)

Lemma calculateRiskLevel_reading (r : Reading.t) :
  calculateRiskLevel (weatherOf r) =
  if Spec.score r >=? 3 then high
  else if Spec.score r >=? 1 then medium
  else low.
Proof.
  rewrite calculateRiskLevel_total, totalRisk_score. reflexivity.
Qed.

Lemma precipitationScore_monotone (p p' : Z) :
  p <= p' -> Spec.precipitationScore p <= Spec.precipitationScore p'.
Proof.
  intro H. unfold Spec.precipitationScore. rewrite !Z.gtb_ltb.
  split_comparisons; lia.
Qed.

Lemma windScore_monotone (w w' : Z) :
  w <= w' -> Spec.windScore w <= Spec.windScore w'.
Proof.
  intro H. unfold Spec.windScore. rewrite !Z.gtb_ltb.
  split_comparisons; lia.
Qed.

(** X1.  More rain or more wind never lowers the risk: for two integer
    readings with the same temperature, if precipitation and wind of the
    second are at least those of the first, its risk level is at least as
    high. *)
Theorem calculateRiskLevel_monotone (r r' : Reading.t) :
  Reading.temperatureC r = Reading.temperatureC r' ->
  Reading.precipitationPct r <= Reading.precipitationPct r' ->
  Reading.windSpeedKmh r <= Reading.windSpeedKmh r' ->
  rank (calculateRiskLevel (weatherOf r))
  <= rank (calculateRiskLevel (weatherOf r')).
Proof.
  intros Ht Hp Hw.
  assert (S : Spec.score r <= Spec.score r').
  { unfold Spec.score. rewrite Ht.
    pose proof (precipitationScore_monotone _ _ Hp).
    pose proof (windScore_monotone _ _ Hw). lia. }
  rewrite !calculateRiskLevel_reading, !Z.geb_leb.
  destruct (Z.leb_spec 3 (Spec.score r)), (Z.leb_spec 3 (Spec.score r'));
    destruct (Z.leb_spec 1 (Spec.score r)), (Z.leb_spec 1 (Spec.score r'));
    simpl; lia.
Qed.

Lemma calculateRiskLevel_monotone_witness :
  rank (calculateRiskLevel (weatherOf (Reading.mk 20 "Rain" 40 10 3)))
  <= rank (calculateRiskLevel (weatherOf (Reading.mk 20 "Storm" 80 30 3))).
Proof.
  apply calculateRiskLevel_monotone; simpl; [reflexivity | lia | lia].
Defined.

(** X2.  An integer reading is low risk exactly when all three values are
    in their comfortable range: temperature from 10 to 30, precipitation at
    most 30 and wind at most 15. *)
Theorem calculateRiskLevel_low_iff (r : Reading.t) :
  calculateRiskLevel (weatherOf r) = low <->
  10 <= Reading.temperatureC r <= 30 /\
  Reading.precipitationPct r <= 30 /\
  Reading.windSpeedKmh r <= 15.
Proof.
  rewrite calculateRiskLevel_reading.
  unfold Spec.score, Spec.temperatureScore, Spec.precipitationScore,
    Spec.windScore.
  rewrite !Z.gtb_ltb, !Z.geb_leb.
  destruct (Z.ltb_spec (Reading.temperatureC r) 5),
    (Z.ltb_spec 35 (Reading.temperatureC r)),
    (Z.ltb_spec (Reading.temperatureC r) 10),
    (Z.ltb_spec 30 (Reading.temperatureC r)),
    (Z.ltb_spec 70 (Reading.precipitationPct r)),
    (Z.ltb_spec 30 (Reading.precipitationPct r)),
    (Z.ltb_spec 25 (Reading.windSpeedKmh r)),
    (Z.ltb_spec 15 (Reading.windSpeedKmh r));
    simpl; split; intro; try discriminate; try reflexivity; lia.
Qed.

(** ** Packing rules against risk factors *)

Lemma In_Umbrella (weather : Weather) :
  In "Umbrella" (generatePackingList weather) <->
  (parseInt weather.(precipitation) > 20)%js = true.
Proof.
  rewrite generatePackingList_rules. each_rule weather; decide_membership.
Qed.

Lemma In_Windbreaker (weather : Weather) :
  In "Windbreaker" (generatePackingList weather) <->
  (parseInt weather.(windSpeed) > 15)%js = true.
Proof.
  rewrite generatePackingList_rules. each_rule weather; decide_membership.
Qed.

Lemma In_Sunscreen (weather : Weather) :
  In "Sunscreen" (generatePackingList weather) <->
  (parseInt weather.(uvIndex) > 5)%js = true.
Proof.
  rewrite generatePackingList_rules. each_rule weather; decide_membership.
Qed.

Lemma In_Sunglasses (weather : Weather) :
  In "Sunglasses" (generatePackingList weather) <->
  (parseInt weather.(uvIndex) > 5)%js = true.
Proof.
  rewrite generatePackingList_rules. each_rule weather; decide_membership.
Qed.

Lemma In_Warm_jacket (weather : Weather) :
  In "Warm jacket" (generatePackingList weather) <->
  (parseInt weather.(temperature) < 15)%js = true.
Proof.
  rewrite generatePackingList_rules. each_rule weather; decide_membership.
Qed.

Lemma In_Hat (weather : Weather) :
  In "Hat" (generatePackingList weather) <->
  (parseInt weather.(temperature) > 25)%js = true.
Proof.
  rewrite generatePackingList_rules. each_rule weather; decide_membership.
Qed.

Lemma js_gt_weaken (n : number Z) (k k' : Z) :
  k' <= k -> (n > k)%js = true -> (n > k')%js = true.
Proof.
  destruct n as [| | |z]; simpl; try (intros; assumption).
  rewrite !Z.gtb_ltb. intros Hk H.
  apply Z.ltb_lt in H. apply Z.ltb_lt. lia.
Qed.

(** X3.  The packing list covers every factor that raises the risk, for any
    weather object: a windbreaker is packed exactly when wind adds to the
    score; an umbrella is packed whenever precipitation adds to the score;
    and whenever temperature adds to the score the list holds either the
    warm jacket or the hat. *)
Theorem risk_factors_are_packed_for (weather : Weather) :
  (In "Windbreaker" (generatePackingList weather) <->
   windRisk (parseInt weather.(windSpeed)) 0 <> 0) /\
  (precipitationRisk (parseInt weather.(precipitation)) 0 <> 0 ->
   In "Umbrella" (generatePackingList weather)) /\
  (temperatureRisk (parseInt weather.(temperature)) 0 <> 0 ->
   In "Warm jacket" (generatePackingList weather)
   \/ In "Hat" (generatePackingList weather)).
Proof.
  rewrite In_Windbreaker, In_Umbrella, In_Warm_jacket, In_Hat.
  split; [|split].
  - unfold windRisk.
    destruct (parseInt weather.(windSpeed) > 25)%js eqn:E25.
    + rewrite (js_gt_weaken _ 25 15) by (lia || exact E25).
      split; intro; [lia | reflexivity].
    + destruct (parseInt weather.(windSpeed) > 15)%js;
        split; intro; try reflexivity; try discriminate; lia.
  - unfold precipitationRisk.
    destruct (parseInt weather.(precipitation) > 70)%js eqn:E70.
    + intros _. apply (js_gt_weaken _ 70 20); [lia | exact E70].
    + destruct (parseInt weather.(precipitation) > 30)%js eqn:E30.
      * intros _. apply (js_gt_weaken _ 30 20); [lia | exact E30].
      * intro H. contradiction H. reflexivity.
  - unfold temperatureRisk.
    destruct (parseInt weather.(temperature)) as [| | |z]; simpl.
    + intro H. contradiction H. reflexivity.
    + intros _. left. reflexivity.
    + intros _. right. reflexivity.
    + rewrite !Z.gtb_ltb.
      destruct (Z.ltb_spec 35 z), (Z.ltb_spec z 5), (Z.ltb_spec 30 z),
        (Z.ltb_spec z 10), (Z.ltb_spec z 15), (Z.ltb_spec 25 z);
        simpl; intro Hne; try lia; auto.
Qed.

Lemma risk_factors_are_packed_for_witness :
  let weather := weatherOf (Reading.mk 2 "Snow" 45 10 1) in
  In "Umbrella" (generatePackingList weather) /\
  (In "Warm jacket" (generatePackingList weather)
   \/ In "Hat" (generatePackingList weather)).
Proof.
  intro weather.
  destruct (risk_factors_are_packed_for weather) as [_ [Hp Ht]].
  split; [apply Hp | apply Ht]; vm_compute; discriminate.
Defined.

(** ** The engine on normalized payloads *)

Lemma normalizeUvIndex_Fin (uv : jsval Q) :
  exists z, normalizeUvIndex uv = Fin z /\ 1 <= z <= 11.
Proof.
  unfold normalizeUvIndex.
  destruct uv as [| |[| | |q]]; try (eexists; split; [reflexivity|lia]).
  simpl. destruct (Qis_zero q); simpl; (eexists; split; [reflexivity|lia]).
Qed.

(** The fields of the weather object built from a [current] section. *)
Lemma normalize_fields (c : Provider.Current) :
  exists weather,
    normalize (currentPayload c) = ([], inr weather) /\
    temperature weather
    = (ToString (Provider.temperature c) ++ "°C")%string /\
    condition weather = or_string (first_description c) "Unknown" /\
    precipitation weather
    = (Number_toString (or_default Zis_zero (Provider.precip c) 0)
         ++ "%")%string /\
    windSpeed weather
    = (Number_toString (or_default Zis_zero (Provider.wind_speed c) 0)
         ++ " km/h")%string /\
    uvIndex weather
    = (Number_toString (normalizeUvIndex (Provider.uv_index c))
         ++ " ("
         ++ getUVDescription (normalizeUvIndex (Provider.uv_index c))
         ++ ")")%string.
Proof.
  eexists. split; [reflexivity|]. repeat split.
Qed.

Lemma or_default_integer (z : Z) :
  or_default Zis_zero (Num (Fin z)) 0 = Fin z.
Proof.
  unfold or_default, Zis_zero.
  destruct (Z.eqb_spec z 0); [subst|]; reflexivity.
Qed.

(** X4.  For a payload whose temperature, precipitation and wind speed are
    safe integers (at most 2^53 - 1 in magnitude, which JavaScript prints
    digit for digit), whatever its descriptions and UV value are, the
    weather object
    is the one of the reading with those integers, the condition text or
    "Unknown", and a UV index clamped into 1..11; so the risk score and the
    packing list computed from it follow the scoring and packing rules on
    the provider's own integers, a value of 0 included. *)
Theorem normalize_integers (t p w : Z) (descriptions : option (list string))
        (uv : jsval Q) :
  isSafeInteger t = true ->
  isSafeInteger p = true ->
  isSafeInteger w = true ->
  let c :=
    {| Provider.temperature := Num (Fin t);
       Provider.weather_descriptions := descriptions;
       Provider.precip := Num (Fin p);
       Provider.wind_speed := Num (Fin w);
       Provider.uv_index := uv |} in
  exists z,
    1 <= z <= 11 /\
    normalizeUvIndex uv = Fin z /\
    let r :=
      Reading.mk t (or_string (first_description c) "Unknown") p w z in
    normalize (currentPayload c) = ([], inr (weatherOf r)) /\
    totalRisk (weatherOf r)
    = Spec.temperatureScore t + Spec.precipitationScore p + Spec.windScore w
    /\ generatePackingList (weatherOf r) = Spec.packingList r.
Proof.
  intros _ _ _ c. destruct (normalizeUvIndex_Fin uv) as [z [E Hz]].
  exists z. split; [exact Hz|]. split; [exact E|].
  intro r. split; [|split].
  - subst r c. unfold normalize, currentPayload, weatherOf, ret.
    cbn [Provider.error Provider.current Provider.temperature
         Provider.precip Provider.wind_speed Provider.uv_index
         Reading.temperatureC Reading.condition Reading.precipitationPct
         Reading.windSpeedKmh Reading.uvIndex ToString].
    rewrite E, !or_default_integer. reflexivity.
  - rewrite totalRisk_score. reflexivity.
  - rewrite generatePackingList_rules. autorewrite with reading.
    reflexivity.
Qed.

Lemma normalize_integers_witness :
  exists z,
    1 <= z <= 11 /\
    normalizeUvIndex (Num (Fin (13 # 2)%Q)) = Fin z /\
    let r := Reading.mk 32 "Sunny" 0 18 z in
    normalize
      (currentPayload
         {| Provider.temperature := Num (Fin 32);
            Provider.weather_descriptions := Some ["Sunny"];
            Provider.precip := Num (Fin 0);
            Provider.wind_speed := Num (Fin 18);
            Provider.uv_index := Num (Fin (13 # 2)%Q) |})
    = ([], inr (weatherOf r)) /\
    totalRisk (weatherOf r)
    = Spec.temperatureScore 32 + Spec.precipitationScore 0
      + Spec.windScore 18 /\
    generatePackingList (weatherOf r) = Spec.packingList r.
Proof.
  apply (normalize_integers 32 0 18 (Some ["Sunny"]) (Num (Fin (13 # 2)%Q)));
    reflexivity.
Defined.

(** X5.  When the provider sends no finite temperature (the field is
    missing, null, NaN or infinite), normalization still succeeds, and the
    temperature text it builds reads as NaN: temperature adds nothing to the
    risk score and neither the warm jacket nor the hat is packed. *)
Theorem missing_temperature_is_ignored
        (t : jsval Z) (descriptions : option (list string))
        (p w : jsval Z) (uv : jsval Q) :
  (forall z, t <> Num (Fin z)) ->
  exists weather,
    normalize
      (currentPayload
         {| Provider.temperature := t;
            Provider.weather_descriptions := descriptions;
            Provider.precip := p;
            Provider.wind_speed := w;
            Provider.uv_index := uv |})
    = ([], inr weather) /\
    parseInt (temperature weather) = NaN /\
    temperatureRisk (parseInt (temperature weather)) 0 = 0 /\
    ~ In "Warm jacket" (generatePackingList weather) /\
    ~ In "Hat" (generatePackingList weather).
Proof.
  intro Ht.
  destruct (normalize_fields
              {| Provider.temperature := t;
                 Provider.weather_descriptions := descriptions;
                 Provider.precip := p;
                 Provider.wind_speed := w;
                 Provider.uv_index := uv |})
    as [weather [E [T _]]].
  exists weather. split; [exact E|].
  assert (P : parseInt (temperature weather) = NaN).
  { rewrite T. simpl Provider.temperature.
    destruct t as [| |[| | |z]]; try reflexivity.
    contradiction (Ht z). reflexivity. }
  rewrite In_Warm_jacket, In_Hat, P.
  repeat split; simpl; discriminate.
Qed.

Lemma missing_temperature_is_ignored_witness :
  exists weather,
    normalize
      (currentPayload
         {| Provider.temperature := Undefined;
            Provider.weather_descriptions := Some ["Overcast"];
            Provider.precip := Num (Fin 10);
            Provider.wind_speed := Num (Fin 20);
            Provider.uv_index := Num (Fin 4%Q) |})
    = ([], inr weather) /\
    parseInt (temperature weather) = NaN /\
    temperatureRisk (parseInt (temperature weather)) 0 = 0 /\
    ~ In "Warm jacket" (generatePackingList weather) /\
    ~ In "Hat" (generatePackingList weather).
Proof.
  apply missing_temperature_is_ignored. intros z H. discriminate H.
Defined.

Lemma uvIndex_cases (z : Z) :
  1 <= z <= 11 ->
  In z [1; 2; 3; 4; 5; 6; 7; 8; 9; 10; 11].
Proof.
  intro H. simpl.
  assert (z = 1 \/ z = 2 \/ z = 3 \/ z = 4 \/ z = 5 \/ z = 6 \/ z = 7
          \/ z = 8 \/ z = 9 \/ z = 10 \/ z = 11) by lia.
  intuition auto.
Qed.

Ltac each_uvIndex H :=
  apply uvIndex_cases in H; simpl in H;
  repeat (destruct H as [H|H]; [symmetry in H; subst|]); [..|destruct H].

(** X6.  For every [current] section the UV text of the weather object is
    one of eleven strings, from "1 (Low)" to "11 (Extreme)": the index in
    range, followed by its own band. *)
Theorem uvIndex_text_is_one_of_eleven (c : Provider.Current) :
  exists weather,
    normalize (currentPayload c) = ([], inr weather) /\
    In (uvIndex weather)
       [ "1 (Low)"; "2 (Low)"; "3 (Moderate)"; "4 (Moderate)";
         "5 (Moderate)"; "6 (High)"; "7 (High)"; "8 (Very High)";
         "9 (Very High)"; "10 (Very High)"; "11 (Extreme)" ].
Proof.
  destruct (normalize_fields c) as [weather [E [_ [_ [_ [_ U]]]]]].
  exists weather. split; [exact E|]. rewrite U.
  destruct (normalizeUvIndex_Fin (Provider.uv_index c)) as [z [-> Hz]].
  each_uvIndex Hz; simpl; tauto.
Qed.

(** X7.  For every [current] section, sunscreen and sunglasses are packed
    together, and exactly when the UV band shown to the user is High,
    Very High or Extreme. *)
Theorem sunscreen_iff_high_band (c : Provider.Current) :
  exists weather,
    normalize (currentPayload c) = ([], inr weather) /\
    (In "Sunscreen" (generatePackingList weather) <->
     In (getUVDescription (normalizeUvIndex (Provider.uv_index c)))
        ["High"; "Very High"; "Extreme"]) /\
    (In "Sunscreen" (generatePackingList weather) <->
     In "Sunglasses" (generatePackingList weather)).
Proof.
  destruct (normalize_fields c) as [weather [E [_ [_ [_ [_ U]]]]]].
  exists weather. split; [exact E|].
  rewrite In_Sunscreen, In_Sunglasses, U.
  split; [|reflexivity].
  destruct (normalizeUvIndex_Fin (Provider.uv_index c)) as [z [-> Hz]].
  rewrite parseInt_Number_toString by reflexivity.
  each_uvIndex Hz; simpl; split; intro H;
    try discriminate H; try reflexivity;
    repeat (destruct H as [H|H]; try discriminate H); try contradiction;
    tauto.
Qed.

(** ** Outcomes and notifications of getWeatherData *)

(** X8.  [getWeatherData] returns a weather object exactly when the request
    was answered, the HTTP status was ok, the body parsed, it carries no
    error object and it has a [current] section; the object returned is the
    one built from that section. *)
Theorem getWeatherData_succeeds_iff
        (fetched : Thrown + Provider.Response) (weather : Weather) :
  outcome (getWeatherData fetched) = inr weather <->
  exists response data c,
    fetched = inr response /\
    Provider.ok response = true /\
    Provider.json response = inr data /\
    Provider.error data = None /\
    Provider.current data = Some c /\
    normalize (currentPayload c) = ([], inr weather).
Proof.
  unfold getWeatherData, getWeatherData_try, normalize, currentPayload.
  split.
  - destruct fetched as [e|response]; simpl; [discriminate|].
    destruct (Provider.ok response) eqn:Ok; simpl; [|discriminate].
    destruct (Provider.json response) as [e|data] eqn:J; simpl;
      [discriminate|].
    destruct (Provider.error data) eqn:Er; simpl; [discriminate|].
    destruct (Provider.current data) as [c|] eqn:Cu; simpl; [|discriminate].
    intro H. injection H as <-.
    exists response, data, c. repeat split; assumption.
  - intros [response [data [c [-> [Ok [J [Er [Cu H]]]]]]]].
    simpl. rewrite Ok. simpl. rewrite J. simpl. rewrite Er, Cu.
    simpl in *. injection H as <-. reflexivity.
Qed.

(** X9.  A failure of the transport never reaches the payload.  On a
    response whose status is not ok, whatever its body holds,
    [getWeatherData] throws "API responded with status N" with N in
    decimal; when the request itself or the parsing of the body fails, it
    rethrows that error; in all three cases it logs once and shows exactly
    the generic error toast. *)
Theorem getWeatherData_transport_failure
        (status : Z) (body : Thrown + Provider.Payload) (err : Thrown) :
  let generic :=
    [ ConsoleError "Weather API error:";
      Toast
        "Failed to fetch weather data. Please check your API key and connection."
        "error" ] in
  getWeatherData
    (inr {| Provider.ok := false; Provider.status := status;
            Provider.json := body |})
  = (generic,
     inl (Error ("API responded with status "
                   ++ Number_toString (Fin status))%string)) /\
  parseInt (Number_toString (Fin status)) = Fin status /\
  getWeatherData (inl err) = (generic, inl err) /\
  getWeatherData
    (inr {| Provider.ok := true; Provider.status := status;
            Provider.json := inl err |})
  = (generic, inl err).
Proof.
  intro generic. repeat split.
  replace (Number_toString (Fin status))
    with (Number_toString (Fin status) ++ "")%string
    by (induction (Number_toString (Fin status)); simpl; congruence).
  apply parseInt_Number_toString. reflexivity.
Qed.

(** X10.  [getWeatherData] shows at most two notifications: none exactly
    when it returns a weather object, and two exactly when an ok response
    carries a provider error object (the provider's message, then the
    generic one). *)
Theorem getWeatherData_toasts (fetched : Thrown + Provider.Response) :
  (toasts (getWeatherData fetched) <= 2)%nat /\
  (toasts (getWeatherData fetched) = 0%nat <->
   exists weather, outcome (getWeatherData fetched) = inr weather) /\
  (toasts (getWeatherData fetched) = 2%nat <->
   exists response data error,
     fetched = inr response /\
     Provider.ok response = true /\
     Provider.json response = inr data /\
     Provider.error data = Some error).
Proof.
  unfold toasts, getWeatherData, getWeatherData_try, normalize.
  destruct fetched as [e|response]; simpl.
  { split; [lia|]. split; split; try discriminate.
    - intros [weather H]. discriminate H.
    - intros [response [data [error [H _]]]]. discriminate H. }
  destruct (Provider.ok response) eqn:Ok; simpl.
  2:{ split; [lia|]. split; split; try discriminate.
      - intros [weather H]. discriminate H.
      - intros [r [data [error [H [Ok' _]]]]].
        injection H as <-. congruence. }
  destruct (Provider.json response) as [e|data] eqn:J; simpl.
  { split; [lia|]. split; split; try discriminate.
    - intros [weather H]. discriminate H.
    - intros [r [data [error [H [_ [J' _]]]]]].
      injection H as <-. congruence. }
  destruct (Provider.error data) as [error|] eqn:Er; simpl.
  { split; [lia|]. split; split; try discriminate.
    - intros [weather H]. discriminate H.
    - intros _. exists response, data, error. repeat split; assumption.
    - intros _. reflexivity. }
  destruct (Provider.current data) as [c|] eqn:Cu; simpl.
  - split; [lia|]. split; split; try discriminate.
    + intros _. eexists. reflexivity.
    + reflexivity.
    + intros [r [d [error [H [_ [J' Er']]]]]].
      injection H as <-. rewrite J in J'. injection J' as <-. congruence.
  - split; [lia|]. split; split; try discriminate.
    + intros [weather H]. discriminate H.
    + intros [r [d [error [H [_ [J' Er']]]]]].
      injection H as <-. rewrite J in J'. injection J' as <-. congruence.
Qed.

(** ** Badges and icons *)

(** X11.  Every risk level has a badge class and an icon of its own in the
    two lookup tables: the lookup never falls back to "bg-secondary" or
    "bi-info-circle-fill" on a level the classifier returns, and two levels
    get the same class, or the same icon, only if they are the same
    level. *)
Theorem risk_levels_have_own_badges (r r' : RiskLevel) :
  (exists class,
     getRiskBadgeClass (RiskLevel_string r) = PString class /\
     class <> "bg-secondary") /\
  (exists icon,
     getRiskIcon (RiskLevel_string r) = PString icon /\
     icon <> "bi-info-circle-fill") /\
  (getRiskBadgeClass (RiskLevel_string r)
   = getRiskBadgeClass (RiskLevel_string r') <-> r = r') /\
  (getRiskIcon (RiskLevel_string r)
   = getRiskIcon (RiskLevel_string r') <-> r = r').
Proof.
  split; [|split; [|split]].
  - destruct r; eexists; (split; [reflexivity | discriminate]).
  - destruct r; eexists; (split; [reflexivity | discriminate]).
  - destruct r, r'; split; intro H;
      try reflexivity; try discriminate H.
  - destruct r, r'; split; intro H;
      try reflexivity; try discriminate H.
Qed.

(** The ten items the packing rules can append. *)
Lemma generatePackingList_items (weather : Weather) (item : string) :
  In item (generatePackingList weather) ->
  In item
     [ "Water bottle"; "Umbrella"; "Waterproof jacket"; "Warm jacket";
       "Blanket"; "Hat"; "Light clothing"; "Sunscreen"; "Sunglasses";
       "Windbreaker" ].
Proof.
  rewrite generatePackingList_rules.
  each_rule weather; simpl; intuition auto.
Qed.

(** X12.  Every item of a packing list gets an icon name from
    [getItemIcon]; it is the fallback "check-circle" exactly for "Blanket"
    and "Light clothing", the two items the packing rules append that the
    icon table has no entry for. *)
Theorem packing_items_icons (weather : Weather) (item : string) :
  In item (generatePackingList weather) ->
  exists icon,
    getItemIcon item = PString icon /\
    (icon = "check-circle" <-> item = "Blanket" \/ item = "Light clothing").
Proof.
  intro H. apply generatePackingList_items in H. simpl in H.
  repeat (destruct H as [H|H]; [symmetry in H; subst item|]);
    [..|destruct H];
    (eexists; split; [reflexivity|]);
    split; intro E;
    try discriminate E;
    try (destruct E as [E|E]; discriminate E);
    auto.
Qed.

Lemma packing_items_icons_witness :
  exists icon,
    getItemIcon "Blanket" = PString icon /\
    (icon = "check-circle" <->
     "Blanket" = "Blanket" \/ "Blanket" = "Light clothing").
Proof.
  apply (packing_items_icons (weatherOf (Reading.mk 10 "Cloudy" 25 5 3))).
  vm_compute. tauto.
Defined.

(** ** Form validation *)

Lemma isEmptyString_true (s : string) :
  isEmptyString s = true <-> s = EmptyString.
Proof.
  destruct s; simpl; split; intro H; try reflexivity; discriminate H.
Qed.

Lemma isEmptyString_false (s : string) :
  isEmptyString s = false <-> s <> EmptyString.
Proof.
  destruct s; simpl; split; intro H;
    try reflexivity; try discriminate H; try discriminate.
  contradiction H. reflexivity.
Qed.

Lemma trimEnd_nonempty (c : ascii) (s : string) :
  isWhiteSpace c = false -> trimEnd (String c s) <> EmptyString.
Proof.
  intro H. simpl. destruct (trimEnd s); [rewrite H|]; discriminate.
Qed.

(** Trimming leaves nothing exactly when the string is all white space. *)
Lemma trim_empty_iff (s : string) :
  trim s = EmptyString <->
  forallb isWhiteSpace (list_ascii_of_string s) = true.
Proof.
  unfold trim. induction s as [|c s IH]; simpl.
  - split; reflexivity.
  - destruct (isWhiteSpace c) eqn:W; simpl.
    + exact IH.
    + split; [|discriminate].
      intro H. exfalso. revert H.
      change (trimEnd (String c s) <> EmptyString).
      apply trimEnd_nonempty. exact W.
Qed.

Section ValidationProperties.

Variable Date_parse : string -> number Z.
Variable now : Z.

(** X13.  For a form whose name and location are made of ASCII characters
    (so that their only white space is the one [trim] strips here),
    [validateForm] never throws, and it accepts the form exactly when name
    and location are not blank after trimming, date and time are not empty,
    and the parsed date is not at or before the current time. *)
Theorem validateForm_accepts_iff (formData : Form.FormData) :
  isAsciiString (Form.name formData) = true ->
  isAsciiString (Form.location formData) = true ->
  (exists accepted,
     outcome (validateForm Date_parse now formData) = inr accepted) /\
  (outcome (validateForm Date_parse now formData) = inr true <->
   trim (Form.name formData) <> EmptyString /\
   trim (Form.location formData) <> EmptyString /\
   Form.date formData <> EmptyString /\
   Form.time formData <> EmptyString /\
   (Date_parse (Form.date formData ++ "T" ++ Form.time formData)
    <= now)%js = false).
Proof.
  intros _ _. unfold validateForm.
  rewrite <- !isEmptyString_false.
  destruct (isEmptyString (trim (Form.name formData)));
    [simpl; split; [eexists; reflexivity|];
     split; [discriminate | intros [H _]; discriminate H]|].
  destruct (isEmptyString (trim (Form.location formData)));
    [simpl; split; [eexists; reflexivity|];
     split; [discriminate | intros [_ [H _]]; discriminate H]|].
  destruct (isEmptyString (Form.date formData));
    [simpl; split; [eexists; reflexivity|];
     split; [discriminate | intros [_ [_ [H _]]]; discriminate H]|].
  destruct (isEmptyString (Form.time formData));
    [simpl; split; [eexists; reflexivity|];
     split; [discriminate | intros [_ [_ [_ [H _]]]]; discriminate H]|].
  destruct (_ <= now)%js; simpl; (split; [eexists; reflexivity|]).
  - split; [discriminate | intros [_ [_ [_ [_ H]]]]; discriminate H].
  - split; [intros _; repeat split | reflexivity].
Qed.

(** X14.  [validateForm] shows nothing when it accepts the form and exactly
    one error toast when it rejects it, with the message of the first check
    that failed. *)
Theorem validateForm_one_toast (formData : Form.FormData) :
  match outcome (validateForm Date_parse now formData) with
  | inr true => effects (validateForm Date_parse now formData) = []
  | inr false =>
      exists message,
        effects (validateForm Date_parse now formData)
        = [Toast message "error"] /\
        In message
           [ "Please enter an event name"; "Please enter a location";
             "Please select a date"; "Please select a time";
             "Please select a future date and time" ]
  | inl _ => False
  end.
Proof.
  unfold validateForm.
  destruct (isEmptyString (trim (Form.name formData)));
    [simpl; eexists; split; [reflexivity | simpl; tauto]|].
  destruct (isEmptyString (trim (Form.location formData)));
    [simpl; eexists; split; [reflexivity | simpl; tauto]|].
  destruct (isEmptyString (Form.date formData));
    [simpl; eexists; split; [reflexivity | simpl; tauto]|].
  destruct (isEmptyString (Form.time formData));
    [simpl; eexists; split; [reflexivity | simpl; tauto]|].
  destruct (_ <= now)%js; simpl;
    [eexists; split; [reflexivity | simpl; tauto] | reflexivity].
Qed.

(** X15.  A name made only of white space is rejected with "Please enter an
    event name", whatever the other fields hold: the name check comes
    first. *)
Theorem validateForm_blank_name (formData : Form.FormData) :
  forallb isWhiteSpace (list_ascii_of_string (Form.name formData)) = true ->
  validateForm Date_parse now formData
  = ([Toast "Please enter an event name" "error"], inr false).
Proof.
  intro H. apply trim_empty_iff in H.
  unfold validateForm. rewrite H. reflexivity.
Qed.

(** X16.  The check for a future date lets an unparsable date through: when
    name and location are ASCII text that is not blank, date and time are
    filled and the date and time do not parse
    (Invalid Date), [validateForm] accepts the form without any message. *)
Theorem validateForm_invalid_date (formData : Form.FormData) :
  isAsciiString (Form.name formData) = true ->
  isAsciiString (Form.location formData) = true ->
  trim (Form.name formData) <> EmptyString ->
  trim (Form.location formData) <> EmptyString ->
  Form.date formData <> EmptyString ->
  Form.time formData <> EmptyString ->
  Date_parse (Form.date formData ++ "T" ++ Form.time formData) = NaN ->
  validateForm Date_parse now formData = ([], inr true).
Proof.
  intros _ _ Hn Hl Hd Ht Hp.
  apply isEmptyString_false in Hn, Hl, Hd, Ht.
  unfold validateForm. rewrite Hn, Hl, Hd, Ht, Hp. reflexivity.
Qed.

End ValidationProperties.

Lemma validateForm_blank_name_witness :
  validateForm (fun _ => Fin 2000) 1000
    {| Form.name := "   "; Form.location := "Nairobi";
       Form.date := "2030-01-01"; Form.time := "10:00" |}
  = ([Toast "Please enter an event name" "error"], inr false).
Proof.
  apply validateForm_blank_name. reflexivity.
Defined.

Lemma validateForm_accepts_iff_witness :
  let formData :=
    {| Form.name := "Picnic"; Form.location := "Nairobi";
       Form.date := "2030-01-01"; Form.time := "10:00" |} in
  outcome (validateForm (fun _ => Fin 2000) 1000 formData) = inr true.
Proof.
  intro formData.
  apply (validateForm_accepts_iff (fun _ => Fin 2000) 1000 formData);
    try reflexivity.
  repeat split; discriminate.
Defined.

Lemma validateForm_invalid_date_witness :
  validateForm (fun _ => NaN) 1000
    {| Form.name := "Picnic"; Form.location := "Nairobi";
       Form.date := "soon"; Form.time := "later" |}
  = ([], inr true).
Proof.
  apply validateForm_invalid_date; simpl; (discriminate || reflexivity).
Defined.
